(** * LiveConfig: the live-instance manager ([LiveConfig/manager.py])

    A shallow embedding of [LiveManager] and the properties of its registry,
    attribute accessor and serializer.

    Python objects are mutable and shared by reference: the instance stored
    in [live_instances] is the very object appended to its class's
    [_instances] list.  The embedding therefore keeps references ([pyobj],
    [pyclass]) in the tables and the mutable parts (an instance's [__dict__],
    a class's [_instances] attribute) in a store indexed by reference.
    Methods are computations in a state-and-exception monad over that store.

    Dicts are finite maps: the order in which Python lists their items is
    not kept, and nothing below depends on it.  A class is looked at for its
    [__name__], its ancestors in resolution order and [_instances], which
    [hasattr] and [getattr] find on the class or on the first ancestor that
    has it.  The attributes of an instance are those of its [__dict__]:
    attributes that only the class has are outside the model, and nothing is
    stated of an attribute by its absence from the [__dict__] alone. *)

From Stdlib Require Import ZArith String Ascii List.
From stdpp Require Import base option gmap strings list fin_maps pretty.

Local Open Scope Z_scope.

(** ** Python values *)

(** The attribute values covered: [None], [bool], [int], [str], [tuple] and
    [list] (no [float], no user objects as values).  Text is ASCII. *)
#[warnings="-register-all"]
Inductive pyval : Type :=
  | VNone
  | VBool (b : bool)
  | VInt (z : Z)
  | VStr (s : string)
  | VTuple (l : list pyval)
  | VList (l : list pyval).

(** [type(v)]: the exact runtime type, a tag of the closed variant. *)
Inductive pytype : Type := TNoneType | TBool | TInt | TStr | TTuple | TList.

Definition py_type (v : pyval) : pytype :=
  match v with
  | VNone => TNoneType
  | VBool _ => TBool
  | VInt _ => TInt
  | VStr _ => TStr
  | VTuple _ => TTuple
  | VList _ => TList
  end.

Global Instance pytype_eq_dec : EqDecision pytype.
Proof. solve_decision. Defined.

(** ** Exceptions and outcomes *)

(** [TypeCoercionError] is the failure of the [TypeChecker] coercions. *)
Inductive exn : Type := ValueError | TypeError | AttributeError | TypeCoercionError.

Inductive outcome (A : Type) : Type :=
  | Ok (a : A)
  | Raise (e : exn).
Arguments Ok {A} a.
Arguments Raise {A} e.

Global Instance outcome_ret : MRet outcome := @Ok.
Global Instance outcome_bind : MBind outcome := λ A B k r,
  match r with Ok a => k a | Raise e => Raise e end.

(** ** Builtins used by the manager *)

Module Builtins.

(** [bool(v)]: truthiness; total. *)
Definition py_bool (v : pyval) : bool :=
  match v with
  | VNone => false
  | VBool b => b
  | VInt z => negb (z =? 0)
  | VStr s => negb (String.eqb s EmptyString)
  | VTuple l | VList l => match l with [] => false | _ => true end
  end.

(** Whitespace skipped by [int(str)] on ASCII text: tab, LF, VT, FF, CR
    and space. *)
Definition is_space (c : ascii) : bool :=
  let n := nat_of_ascii c in
  ((9 <=? n)%nat && (n <=? 13)%nat) || (n =? 32)%nat.

Definition digit_of (c : ascii) : option Z :=
  let n := nat_of_ascii c in
  if ((48 <=? n)%nat && (n <=? 57)%nat) then Some (Z.of_nat (n - 48)) else None.

Fixpoint lstrip (s : string) : string :=
  match s with
  | String c s' => if is_space c then lstrip s' else s
  | EmptyString => s
  end.

Fixpoint all_space (s : string) : bool :=
  match s with
  | String c s' => is_space c && all_space s'
  | EmptyString => true
  end.

(** Digits of a base-10 literal, single underscores allowed between
    digits, then optional trailing whitespace.  [prev] tells whether the
    previous character was a digit. *)
Fixpoint parse_digits (s : string) (acc : Z) (prev : bool) : option Z :=
  match s with
  | EmptyString => if prev then Some acc else None
  | String c s' =>
      match digit_of c with
      | Some d => parse_digits s' (10 * acc + d) true
      | None =>
          if prev && Ascii.eqb c "_"%char then parse_digits s' acc false
          else if prev && is_space c && all_space s' then Some acc
          else None
      end
  end.

Definition parse_int (s : string) : option Z :=
  match lstrip s with
  | String "-"%char s' => Z.opp <$> parse_digits s' 0 false
  | String "+"%char s' => parse_digits s' 0 false
  | s' => parse_digits s' 0 false
  end.

(** [int(v)] *)
Definition py_int (v : pyval) : outcome Z :=
  match v with
  | VInt z => Ok z
  | VBool b => Ok (if b then 1 else 0)
  | VStr s => match parse_int s with Some z => Ok z | None => Raise ValueError end
  | VNone | VTuple _ | VList _ => Raise TypeError
  end.

Definition chars (s : string) : list pyval :=
  (λ c, VStr (String c EmptyString)) <$> list_ascii_of_string s.

(** [tuple(v)] and [list(v)]: the elements of an iterable. *)
Definition py_iter (v : pyval) : outcome (list pyval) :=
  match v with
  | VTuple l | VList l => Ok l
  | VStr s => Ok (chars s)
  | VNone | VBool _ | VInt _ => Raise TypeError
  end.

Definition squote : ascii := "'"%char.
Definition dquote : ascii := ascii_of_nat 34.
Definition bslash : ascii := ascii_of_nat 92.

Fixpoint contains (c : ascii) (s : string) : bool :=
  match s with
  | String c' s' => Ascii.eqb c c' || contains c s'
  | EmptyString => false
  end.

Definition hex_digit (n : nat) : ascii :=
  if (n <? 10)%nat then ascii_of_nat (48 + n) else ascii_of_nat (87 + n).

Definition escape_char (q c : ascii) : string :=
  let n := nat_of_ascii c in
  if Ascii.eqb c q || Ascii.eqb c bslash then String bslash (String c EmptyString)
  else if (n =? 9)%nat then String bslash "t"%string
  else if (n =? 10)%nat then String bslash "n"%string
  else if (n =? 13)%nat then String bslash "r"%string
  else if (n <? 32)%nat || (n =? 127)%nat then
    String bslash (String "x"%char (String (hex_digit (n / 16)) (String (hex_digit (n mod 16)) EmptyString)))
  else String c EmptyString.

Fixpoint escape (q : ascii) (s : string) : string :=
  match s with
  | String c s' => escape_char q c +:+ escape q s'
  | EmptyString => EmptyString
  end.

(** [repr(s)] for a string: single quotes unless the text has a single
    quote and no double quote. *)
Definition repr_str (s : string) : string :=
  let q := if contains squote s && negb (contains dquote s) then dquote else squote in
  String q (escape q s +:+ String q EmptyString).

Definition join (sep : string) (l : list string) : string :=
  match l with
  | [] => EmptyString
  | x :: xs => fold_left (λ acc y, acc +:+ sep +:+ y) xs x
  end.

(** [repr(v)] *)
Fixpoint py_repr (v : pyval) : string :=
  match v with
  | VNone => "None"%string
  | VBool true => "True"%string
  | VBool false => "False"%string
  | VInt z => pretty z
  | VStr s => repr_str s
  | VTuple l =>
      match l with
      | [x] => "(" +:+ py_repr x +:+ ",)"
      | _ => "(" +:+ join ", " (map py_repr l) +:+ ")"
      end
  | VList l => "[" +:+ join ", " (map py_repr l) +:+ "]"
  end.

(** [str(v)] *)
Definition py_str (v : pyval) : string :=
  match v with VStr s => s | _ => py_repr v end.

(** [t(v)]: calling the type object [t] on [v]. *)
Definition call_type (t : pytype) (v : pyval) : outcome pyval :=
  match t with
  | TNoneType => Raise TypeError
  | TBool => Ok (VBool (py_bool v))
  | TInt => match py_int v with Ok z => Ok (VInt z) | Raise e => Raise e end
  | TStr => Ok (VStr (py_str v))
  | TTuple => match py_iter v with Ok l => Ok (VTuple l) | Raise e => Raise e end
  | TList => match py_iter v with Ok l => Ok (VList l) | Raise e => Raise e end
  end.

(** [s.startswith(p)] *)
Definition startswith (s p : string) : bool := String.prefix p s.

End Builtins.
Import Builtins.

(** ** References and the store *)

(** A class object: its identity and its [__name__]. *)
Record pyclass : Type := PyClass { cls_id : positive; cls_name : string }.

(** An instance: its identity and [type(instance)]. *)
Record pyobj : Type := PyObj { obj_id : positive; obj_class : pyclass }.

Global Instance pyclass_eq_dec : EqDecision pyclass.
Proof. solve_decision. Defined.
Global Instance pyobj_eq_dec : EqDecision pyobj.
Proof. solve_decision. Defined.

Global Program Instance pyclass_countable : Countable pyclass :=
  inj_countable' (λ c, (cls_id c, cls_name c)) (λ p, PyClass p.1 p.2) _.
Next Obligation. by intros []. Qed.
Global Program Instance pyobj_countable : Countable pyobj :=
  inj_countable' (λ o, (obj_id o, obj_class o)) (λ p, PyObj p.1 p.2) _.
Next Obligation. by intros []. Qed.

(** A dict with string keys, as [vars(instance)] and the saved attributes. *)
Abbreviation attrs := (gmap string pyval).

(** The saved representation: instance name -> (attribute name -> value). *)
Abbreviation snapshot := (gmap string attrs).

(** The file handler collaborator: [loaded_values] is [None] or a dict whose
    key ["live_instances"] (where present) holds a snapshot. *)
Record FileHandler : Type := { loaded_values : option (gmap string snapshot) }.

(** What [logger.warning] records. *)
Inductive warning : Type :=
  | InstanceDoesNotExist (instance_name : string)
  | AttributeDoesNotExist (attr_name : string) (instance : pyobj)
  | FailedToUpdate (e : exn).

(** The [LiveManager] fields ([live_classes], [live_instances],
    [file_handler]) and the state of the process they refer to.  [cls_mro]
    gives the ancestors of a class, in resolution order, the class itself
    and [object] left out; a class without an entry has none.
    [cls_instances] is the [_instances] in the class's own [__dict__]. *)
Record world : Type := World {
  live_classes : gmap string pyclass;
  live_instances : gmap string pyobj;
  file_handler : option FileHandler;
  obj_dict : gmap pyobj attrs;                (* instance.__dict__ *)
  cls_mro : gmap pyclass (list pyclass);      (* cls.__mro__[1:-1] *)
  cls_instances : gmap pyclass (list pyobj);  (* cls.__dict__["_instances"] *)
  log : list warning
}.

(** [vars(o)]; an object nothing was set on has an empty [__dict__]. *)
Definition vars_of (w : world) (o : pyobj) : attrs := default ∅ (obj_dict w !! o).

Definition with_live_classes (f : gmap string pyclass → gmap string pyclass) (w : world) : world :=
  World (f (live_classes w)) (live_instances w) (file_handler w) (obj_dict w) (cls_mro w) (cls_instances w) (log w).
Definition with_live_instances (f : gmap string pyobj → gmap string pyobj) (w : world) : world :=
  World (live_classes w) (f (live_instances w)) (file_handler w) (obj_dict w) (cls_mro w) (cls_instances w) (log w).
Definition with_obj_dict (f : gmap pyobj attrs → gmap pyobj attrs) (w : world) : world :=
  World (live_classes w) (live_instances w) (file_handler w) (f (obj_dict w)) (cls_mro w) (cls_instances w) (log w).
Definition with_cls_instances (f : gmap pyclass (list pyobj) → gmap pyclass (list pyobj)) (w : world) : world :=
  World (live_classes w) (live_instances w) (file_handler w) (obj_dict w) (cls_mro w) (f (cls_instances w)) (log w).
Definition with_log (f : list warning → list warning) (w : world) : world :=
  World (live_classes w) (live_instances w) (file_handler w) (obj_dict w) (cls_mro w) (cls_instances w) (f (log w)).

(** [LiveManager()] in a process whose objects have the dicts [objs] and
    whose classes have the ancestors [mro] and the [_instances] lists
    [insts] (those an earlier manager left, for one): empty tables and no
    file handler. *)
Definition init (objs : gmap pyobj attrs) (mro : gmap pyclass (list pyclass))
    (insts : gmap pyclass (list pyobj)) : world :=
  World ∅ ∅ None objs mro insts [].

(** [cls.__mro__] without [object]. *)
Definition mro_of (w : world) (cls : pyclass) : list pyclass :=
  cls :: default [] (cls_mro w !! cls).

(** The first class of [l] whose own [__dict__] has [_instances]. *)
Fixpoint first_with_instances (w : world) (l : list pyclass) : option pyclass :=
  match l with
  | [] => None
  | c :: l' =>
      match cls_instances w !! c with
      | Some _ => Some c
      | None => first_with_instances w l'
      end
  end.

(** Where [cls._instances] is found: on the class or, failing that, on its
    first ancestor that has it.  [hasattr(cls, "_instances")] is whether
    there is such a class. *)
Definition instances_owner (w : world) (cls : pyclass) : option pyclass :=
  first_with_instances w (mro_of w cls).

(** [getattr(cls, "_instances", d)] *)
Definition class_instances (w : world) (cls : pyclass) (d : list pyobj) : list pyobj :=
  match instances_owner w cls with
  | Some c => default d (cls_instances w !! c)
  | None => d
  end.

(** ** The monad of methods: state passing, with exceptions *)

Definition M (A : Type) : Type := world → outcome A * world.

Definition ret {A} (a : A) : M A := λ w, (Ok a, w).
Definition bind {A B} (m : M A) (k : A → M B) : M B :=
  λ w, match m w with
       | (Ok a, w') => k a w'
       | (Raise e, w') => (Raise e, w')
       end.
Definition raise {A} (e : exn) : M A := λ w, (Raise e, w).
Definition gets {A} (f : world → A) : M A := λ w, (Ok (f w), w).
Definition modify (f : world → world) : M unit := λ w, (Ok tt, f w).
Definition lift {A} (r : outcome A) : M A := λ w, (r, w).
(** [try: m except Exception as e: h e] *)
Definition try_except {A} (m : M A) (h : exn → M A) : M A :=
  λ w, match m w with
       | (Ok a, w') => (Ok a, w')
       | (Raise e, w') => h e w'
       end.

Global Instance M_ret : MRet M := @ret.
Global Instance M_bind : MBind M := λ A B k m, bind m k.

Definition warn (x : warning) : M unit := modify (with_log (λ l, l ++ [x])).

(** [for k, v in d.items(): acc = body k v acc], from [acc = b] *)
Definition fold_items {V B} (d : gmap string V) (body : string → V → B → M B) (b : B) : M B :=
  map_fold (λ k v rest, acc ← rest; body k v acc) (ret b) d.

(** [for k, v in d.items(): body k v] *)
Definition for_items {V} (d : gmap string V) (body : string → V → M unit) : M unit :=
  fold_items d (λ k v _, body k v) tt.

(** [vars(o)] *)
Definition vars (o : pyobj) : M attrs := gets (λ w, vars_of w o).

(** [getattr(o, a, d)], [getattr(o, a)] and [setattr(o, a, v)] *)
Definition getattr_default (o : pyobj) (a : string) (d : pyval) : M pyval :=
  gets (λ w, default d (vars_of w o !! a)).
Definition getattr (o : pyobj) (a : string) : M pyval :=
  d ← gets (λ w, vars_of w o);
  match d !! a with
  | Some v => ret v
  | None => raise AttributeError
  end.
Definition setattr (o : pyobj) (a : string) (v : pyval) : M pyval :=
  modify (λ w, with_obj_dict (insert o (<[a := v]> (vars_of w o))) w);;
  ret VNone.

(** ** The TypeChecker collaborator ([liveconfig.typechecker])

    Its four static methods.  They read the instance they are given and
    change nothing in the manager's state. *)
Class TypeChecker : Type := {
  handle_bool : pyval → outcome pyval;
  handle_int : pyval → outcome pyval;
  handle_tuple : pyval → attrs → string → outcome pyval;
  handle_list : pyval → attrs → string → outcome pyval
}.

(** ** [class LiveManager] *)

Section LiveManager.
Context `{TC : TypeChecker}.

(** [register_class(cls)] *)
Definition register_class (cls : pyclass) : M pyclass :=
  modify (with_live_classes (insert (cls_name cls) cls));;
  ret cls.

(** [load_values_into_instance(instance, attrs)] *)
Definition load_values_into_instance (instance : pyobj) (saved : attrs) : M pyobj :=
  for_items saved (λ attr value, setattr instance attr value;; ret tt);;
  ret instance.

(** [register_instance(name, instance)]; the name collision raises
    [ValueError]. *)
Definition register_instance (name : string) (instance : pyobj) : M unit :=
  insts ← gets live_instances;
  match insts !! name with
  | Some _ => raise ValueError
  | None =>
      fh ← gets file_handler;
      instance ←
        match fh with
        | Some {| loaded_values := Some lv |} =>
            match lv !! "live_instances" with
            | Some saved =>
                load_values_into_instance instance (default ∅ (saved !! name))
            | None => ret instance
            end
        | _ => ret instance
        end;
      modify (with_live_instances (insert name instance));;
      let cls := obj_class instance in
      found ← gets (λ w, instances_owner w cls);
      match found with
      | Some c =>
          (* [cls._instances.append(instance)]: the list found, which is the
             one of [c], is changed in place *)
          modify (λ w, with_cls_instances (insert c (class_instances w cls [] ++ [instance])) w)
      | None => modify (with_cls_instances (insert cls [instance]))
      end
  end.

(** [get_live_classes()] *)
Definition get_live_classes : M (gmap string pyclass) := gets live_classes.

(** [get_live_class_by_name(class_name)]: [dict.get], [None] on a miss. *)
Definition get_live_class_by_name (class_name : string) : M (option pyclass) :=
  gets (λ w, live_classes w !! class_name).

(** [get_live_instances(class_name)]; a class object is truthy, [None] is
    not. *)
Definition get_live_instances (class_name : string) : M (option (list pyobj)) :=
  cls ← get_live_class_by_name class_name;
  match cls with
  | Some cls =>
      l ← gets (λ w, class_instances w cls []);
      ret (Some l)
  | None => ret None
  end.

(** [get_live_instance_by_name(instance_name)] *)
Definition get_live_instance_by_name (instance_name : string) : M (option pyobj) :=
  insts ← gets live_instances;
  match insts !! instance_name with
  | Some instance => ret (Some instance)
  | None => warn (InstanceDoesNotExist instance_name);; ret None
  end.

(** [get_live_instance_attr_by_name(instance, attr_name)]; with
    [instance] [None] the body falls through and returns [None]. *)
Definition get_live_instance_attr_by_name (instance : option pyobj) (attr_name : string) : M pyval :=
  match instance with
  | Some instance =>
      attr ← getattr_default instance attr_name VNone;
      match attr with
      | VNone => warn (AttributeDoesNotExist attr_name instance)
      | _ => ret tt
      end;;
      ret attr
  | None => ret VNone
  end.

(** The [if]/[elif] chain on [attr_type]: [Some v] goes on to the [try]
    with the new [value], [None] is the early [return None] of the tuple
    and list branches.  The checker is handed [instance] to read; [d] is
    its [vars]. *)
Definition dispatch (attr_type : pytype) (value : pyval) (d : attrs) (attr_name : string)
    : outcome (option pyval) :=
  match attr_type with
  | TBool => v ← handle_bool value; mret (Some v)
  | TInt => v ← handle_int value; mret (Some v)
  | TTuple =>
      v ← handle_tuple value d attr_name;
      mret (match v with VNone => None | _ => Some v end)
  | TList =>
      v ← handle_list value d attr_name;
      mret (match v with VNone => None | _ => Some v end)
  | _ => mret (Some value)
  end.

(** [set_live_instance_attr_by_name(instance_name, attr_name, value)] *)
Definition set_live_instance_attr_by_name (instance_name attr_name : string) (value : pyval)
    : M pyval :=
  instance ← get_live_instance_by_name instance_name;
  match instance with
  | None => ret VNone
  | Some _ =>
      attr ← get_live_instance_attr_by_name instance attr_name;
      match attr with
      | VNone => ret VNone
      | _ =>
          match instance with
          | Some instance =>
              cur ← getattr instance attr_name;
              let attr_type := py_type cur in
              d ← vars instance;
              value ← lift (dispatch attr_type value d attr_name);
              match value with
              | None => ret VNone
              | Some value =>
                  try_except
                    (value ← lift (call_type attr_type value);
                     setattr instance attr_name value)
                    (λ e, warn (FailedToUpdate e);; ret VNone)
              end
          | None => ret VNone
          end
      end
  end.

(** [clean_attrs[attr] = value]: storing under a string key. *)
Definition dict_setitem (d : attrs) (k : string) (v : pyval) : outcome attrs :=
  Ok (<[k := v]> d).

(** The inner loop of [serialize_instances] over [vars(live_instance)],
    with its guarded assignment. *)
Definition clean (attributes : attrs) : outcome attrs :=
  map_fold (λ attr value rest,
    clean_attrs ← rest;
    if startswith attr "__" || startswith attr "_tracked_attrs" then Ok clean_attrs
    else match dict_setitem clean_attrs attr value with
         | Ok d => Ok d
         | Raise TypeError | Raise ValueError =>
             dict_setitem clean_attrs attr (VStr (py_str value))
         | Raise e => Raise e
         end) (Ok ∅) attributes.

(** [serialize_instances()] *)
Definition serialize_instances : M (gmap string snapshot) :=
  instances ← gets live_instances;
  live ← fold_items instances (λ instance_name live_instance live,
            attributes ← vars live_instance;
            clean_attrs ← lift (clean attributes);
            ret (<[instance_name := clean_attrs]> live)) ∅;
  ret {[ "live_instances" := live ]}.

End LiveManager.

(** ** The coercions of the TypeChecker, from the specification *)

Module SpecTypeChecker.

Definition lower_char (c : ascii) : ascii :=
  let n := nat_of_ascii c in
  if ((65 <=? n)%nat && (n <=? 90)%nat) then ascii_of_nat (n + 32) else c.

Fixpoint lower (s : string) : string :=
  match s with
  | String c s' => String (lower_char c) (lower s')
  | EmptyString => EmptyString
  end.

Definition rev_string (s : string) : string :=
  string_of_list_ascii (rev (list_ascii_of_string s)).

Definition strip (s : string) : string :=
  rev_string (lstrip (rev_string (lstrip s))).

Fixpoint split_commas (s : string) : list string :=
  match s with
  | EmptyString => [EmptyString]
  | String c s' =>
      if Ascii.eqb c ","%char then EmptyString :: split_commas s'
      else match split_commas s' with
           | x :: r => String c x :: r
           | [] => [String c EmptyString]
           end
  end.

Definition drop_open (s : string) : string :=
  match s with
  | String c s' => if Ascii.eqb c "("%char || Ascii.eqb c "["%char then s' else s
  | EmptyString => s
  end.

Definition drop_close (s : string) : string :=
  match rev_string s with
  | String c s' => if Ascii.eqb c ")"%char || Ascii.eqb c "]"%char then rev_string s' else s
  | EmptyString => s
  end.

(** The elements of a comma-separated, optionally bracketed text. *)
Definition elements_of (s : string) : list string :=
  strip <$> split_commas (drop_close (drop_open (strip s))).

(** Modelled from the spec: [coerceBool] of the TypeChecker, which is not
    among the sources.  Case-insensitive tokens true/1/yes and
    false/0/no; anything else fails, nothing defaults. *)
Definition coerceBool (raw : pyval) : outcome pyval :=
  match raw with
  | VStr s =>
      let t := lower s in
      if bool_decide (t ∈ ["true"; "1"; "yes"]) then Ok (VBool true)
      else if bool_decide (t ∈ ["false"; "0"; "no"]) then Ok (VBool false)
      else Raise TypeCoercionError
  | _ => Raise TypeCoercionError
  end.

(** Modelled from the spec: [coerceInt] of the TypeChecker, which is not
    among the sources.  A base-10 integer; non-numeric input fails. *)
Definition coerceInt (raw : pyval) : outcome pyval :=
  match raw with
  | VStr s =>
      match parse_int s with
      | Some z => Ok (VInt z)
      | None => Raise TypeCoercionError
      end
  | _ => Raise TypeCoercionError
  end.

(** One element, coerced to the type of the element it replaces. *)
Definition coerce_as (t : pytype) (s : string) : option pyval :=
  match t with
  | TBool => match coerceBool (VStr s) with Ok v => Some v | Raise _ => None end
  | TInt => match coerceInt (VStr s) with Ok v => Some v | Raise _ => None end
  | TStr => Some (VStr s)
  | _ => None
  end.

(** Modelled from the spec: [coerceTuple] of the TypeChecker, which is not
    among the sources.  The arity and the element types are those of the
    tuple now held by the attribute; any failure gives [None]. *)
Definition coerceTuple (raw : pyval) (owner : attrs) (attr_name : string) : outcome pyval :=
  match raw, owner !! attr_name with
  | VStr s, Some (VTuple cur) =>
      let parts := elements_of s in
      if bool_decide (length parts = length cur) then
        match mapM (λ p, coerce_as (py_type p.1) p.2) (zip cur parts) with
        | Some l => Ok (VTuple l)
        | None => Ok VNone
        end
      else Ok VNone
  | _, _ => Ok VNone
  end.

(** Modelled from the spec: [coerceList] of the TypeChecker, which is not
    among the sources.  The element type is that of the first element of
    the list now held by the attribute (text where there is none); the
    length is free; any failure gives [None]. *)
Definition coerceList (raw : pyval) (owner : attrs) (attr_name : string) : outcome pyval :=
  match raw, owner !! attr_name with
  | VStr s, Some (VList cur) =>
      let t := match cur with x :: _ => py_type x | [] => TStr end in
      match mapM (coerce_as t) (elements_of s) with
      | Some l => Ok (VList l)
      | None => Ok VNone
      end
  | _, _ => Ok VNone
  end.

Definition checker : TypeChecker :=
  {| handle_bool := coerceBool; handle_int := coerceInt;
     handle_tuple := coerceTuple; handle_list := coerceList |}.

End SpecTypeChecker.

(** ** A running example: class [Foo] and its instance registered as ["x"] *)

Module Example.

Definition Foo : pyclass := PyClass 1 "Foo".
Definition Bar : pyclass := PyClass 2 "Bar".
Definition x : pyobj := PyObj 1 Foo.
Definition y : pyobj := PyObj 2 Bar.

(** [x] as its constructor leaves it. *)
Definition x_vars : attrs :=
  {[ "a" := VInt 1; "b" := VStr "hi"; "_tracked_attrs" := VList [] ]}.

Definition y_vars : attrs :=
  {[ "flag" := VBool true; "note" := VNone ]}.

(** A fresh manager, then [register_class(Foo)], [register_class(Bar)]. *)
Definition w_classes : world :=
  (register_class Bar (register_class Foo (init {[ x := x_vars; y := y_vars ]} ∅ ∅)).2).2.

(** ... then [register_instance("x", x)]. *)
Definition w_x : world := (register_instance "x" x w_classes).2.

(** ... then [register_instance("y", y)]. *)
Definition w_xy : world := (register_instance "y" y w_x).2.

(** A manager whose file handler has loaded [{"live_instances": {"x": {"a": 42}}}]. *)
Definition w_loaded : world :=
  World (live_classes w_classes) ∅
    (Some {| loaded_values := Some {[ "live_instances" := {[ "x" := {[ "a" := VInt 42 ]} ]} ]} |})
    (obj_dict w_classes) ∅ ∅ [].

(** A second object of [Foo], with a tuple, a list and a text, registered
    alone as ["z"]. *)
Definition z : pyobj := PyObj 3 Foo.

Definition z_vars : attrs :=
  {[ "pos" := VTuple [VInt 1; VInt 2]; "tags" := VList [VStr "a"]; "title" := VStr "t";
     "n" := VInt 3 ]}.

Definition w_z : world := (register_instance "z" z (init {[ z := z_vars ]} ∅ ∅)).2.

(** A checker that hands the raw value on as it is. *)
Definition passthrough : TypeChecker :=
  {| handle_bool := Ok; handle_int := Ok;
     handle_tuple := λ raw _ _, Ok raw; handle_list := λ raw _ _, Ok raw |}.

(** A new process: a fresh object of [Foo] with a default [a], and a file
    handler that has loaded what [serialize_instances] gave in [w_x]. *)
Definition x2 : pyobj := PyObj 9 Foo.

Definition w_restore : world :=
  World ∅ ∅
    (Some {| loaded_values :=
               Some {[ "live_instances" := {[ "x" := {[ "a" := VInt 1; "b" := VStr "hi" ]} ]} ]} |})
    {[ x2 := {[ "a" := VInt 0; "_tracked_attrs" := VList [VStr "a"] ]} ]} ∅ ∅ [].

(** A class and a subclass of it, [class Sub(Base)], both registered, and
    an instance [b] of [Base] registered as ["b"]; no instance of [Sub]
    exists. *)
Definition Base : pyclass := PyClass 10 "Base".
Definition Sub : pyclass := PyClass 11 "Sub".
Definition b : pyobj := PyObj 10 Base.

Definition w_sub_classes : world :=
  (register_class Sub (register_class Base (init {[ b := ∅ ]} {[ Sub := [Base] ]} ∅)).2).2.

Definition w_sub : world := (register_instance "b" b w_sub_classes).2.
End Example.

(** ** Vocabulary of the statements *)

Section Vocabulary.
Context `{TC : TypeChecker}.

(** What passes the [is None] checks on [getattr(instance, attr_name, None)]:
    a value that is there and is not [None]. *)
Definition present (x : option pyval) : option pyval :=
  match x with
  | Some VNone | None => None
  | Some v => Some v
  end.

(** What the setter does once the instance and the attribute are found. *)
Definition write (o : pyobj) (attr_name : string) (cur value : pyval) (w : world)
    : outcome pyval * world :=
  match dispatch (py_type cur) value (vars_of w o) attr_name with
  | Raise e => (Raise e, w)
  | Ok None => (Ok VNone, w)
  | Ok (Some v) =>
      match call_type (py_type cur) v with
      | Ok v' => (Ok VNone, (setattr o attr_name v' w).2)
      | Raise e => (Ok VNone, with_log (λ l, l ++ [FailedToUpdate e]) w)
      end
  end.

(** The saved attributes [register_instance] applies for [name]: those of
    [loaded_values["live_instances"].get(name, {})], where a file handler
    with loaded values that have the key is set. *)
Definition saved_for (w : world) (name : string) : option attrs :=
  match file_handler w with
  | Some {| loaded_values := Some lv |} =>
      match lv !! "live_instances" with
      | Some saved => Some (default ∅ (saved !! name))
      | None => None
      end
  | _ => None
  end.

(** The state once the saved attributes, if any, are on the instance. *)
Definition loaded (name : string) (instance : pyobj) (w : world) : world :=
  match saved_for w name with
  | Some saved => (load_values_into_instance instance saved w).2
  | None => w
  end.

(** The two writes that end [register_instance]: the entry in the instance
    table, and the append to the class's [_instances], created where the
    class has none. *)
Definition enter (name : string) (instance : pyobj) (w : world) : world :=
  let cls := obj_class instance in
  with_cls_instances
    (insert (default cls (instances_owner w cls)) (class_instances w cls [] ++ [instance]))
    (with_live_instances (insert name instance) w).

(** [w'] is [w] but for the instances' attributes. *)
Definition same_registry (w w' : world) : Prop :=
  live_classes w' = live_classes w ∧ live_instances w' = live_instances w
  ∧ file_handler w' = file_handler w ∧ cls_instances w' = cls_instances w
  ∧ log w' = log w ∧ cls_mro w' = cls_mro w.

(** The names [serialize_instances] skips. *)
Definition skipped (attr : string) : bool :=
  startswith attr "__" || startswith attr "_tracked_attrs".

(** The states of a run that starts in [w0]: any calls of the manager's
    methods, assignments of a file handler, and writes of the program to its
    own objects. *)
Inductive reachable (w0 : world) : world → Prop :=
  | reach_start : reachable w0 w0
  | reach_register_class w cls :
      reachable w0 w → reachable w0 (register_class cls w).2
  | reach_register_instance w name instance :
      reachable w0 w → reachable w0 (register_instance name instance w).2
  | reach_get_instance w instance_name :
      reachable w0 w → reachable w0 (get_live_instance_by_name instance_name w).2
  | reach_get_attr w instance attr_name :
      reachable w0 w →
      reachable w0 (get_live_instance_attr_by_name instance attr_name w).2
  | reach_set_attr w instance_name attr_name value :
      reachable w0 w →
      reachable w0 (set_live_instance_attr_by_name instance_name attr_name value w).2
  | reach_file_handler w fh :
      reachable w0 w →
      reachable w0 (World (live_classes w) (live_instances w) fh (obj_dict w)
                      (cls_mro w) (cls_instances w) (log w))
  | reach_setattr w o a v :
      reachable w0 w → reachable w0 (setattr o a v w).2.

(** The ancestors are those of the start, and a class that had no
    [_instances] of its own at the start and none of whose instances is
    registered has none. *)
Definition registry_inv (w0 w : world) : Prop :=
  cls_mro w = cls_mro w0
  ∧ ∀ cls, cls_instances w0 !! cls = None →
           map_Forall (λ _ o, obj_class o ≠ cls) (live_instances w) →
           cls_instances w !! cls = None.

(** The registered instances whose class is [cls], one for each name. *)
Definition registered_of (w : world) (cls : pyclass) : list pyobj :=
  filter (λ o, obj_class o = cls) (map_to_list (live_instances w)).*2.

End Vocabulary.

(** ** Properties *)

Ltac unfold_M :=
  unfold mbind, M_bind, bind, mret, M_ret, ret, gets, modify, raise, lift, warn, try_except in *.

(** Runs the first [bind] of a computation applied to a state. *)
Ltac step_bind := unfold mbind at 1, M_bind at 1, bind at 1.

Section Properties.
Context `{TC : TypeChecker}.

(** *** The accessors and the store *)

Lemma register_class_eq cls w :
  register_class cls w = (Ok cls, with_live_classes (insert (cls_name cls) cls) w).
Proof. reflexivity. Qed.

Lemma get_live_instance_by_name_found w instance_name o :
  live_instances w !! instance_name = Some o →
  get_live_instance_by_name instance_name w = (Ok (Some o), w).
Proof. intros Hin. unfold get_live_instance_by_name. unfold_M. by rewrite Hin. Qed.

Lemma get_live_instance_by_name_missing w instance_name :
  live_instances w !! instance_name = None →
  get_live_instance_by_name instance_name w
  = (Ok None, with_log (λ l, l ++ [InstanceDoesNotExist instance_name]) w).
Proof. intros Hin. unfold get_live_instance_by_name. unfold_M. by rewrite Hin. Qed.

(** The accessor returns the attribute, or [None] for an attribute that is
    absent or holds [None]; only the log changes. *)
Lemma get_live_instance_attr_by_name_eq w o attr_name :
  get_live_instance_attr_by_name (Some o) attr_name w
  = match vars_of w o !! attr_name with
    | Some VNone | None =>
        (Ok VNone, with_log (λ l, l ++ [AttributeDoesNotExist attr_name o]) w)
    | Some v => (Ok v, w)
    end.
Proof.
  unfold get_live_instance_attr_by_name, getattr_default. unfold_M.
  destruct (vars_of w o !! attr_name) as [[]|]; reflexivity.
Qed.

Lemma get_live_instance_attr_by_name_value w o attr_name v :
  vars_of w o !! attr_name = Some v →
  (get_live_instance_attr_by_name (Some o) attr_name w).1 = Ok v.
Proof. intros Hv. rewrite get_live_instance_attr_by_name_eq, Hv. by destruct v. Qed.

Lemma vars_of_with_log f w o : vars_of (with_log f w) o = vars_of w o.
Proof. reflexivity. Qed.

Lemma vars_of_setattr w o a v o' :
  vars_of (setattr o a v w).2 o'
  = if decide (o = o') then <[a := v]> (vars_of w o) else vars_of w o'.
Proof.
  unfold setattr, vars_of. unfold_M. simpl.
  case_decide as Ho; [subst; by rewrite lookup_insert_eq | by rewrite lookup_insert_ne].
Qed.

Lemma present_Some x v : present x = Some v → x = Some v ∧ py_type v ≠ TNoneType.
Proof. destruct x as [[]|]; simpl; intros; by simplify_eq. Qed.

Lemma present_typed v : py_type v ≠ TNoneType → present (Some v) = Some v.
Proof. by destruct v. Qed.

Lemma call_type_type t v v' : call_type t v = Ok v' → py_type v' = t.
Proof.
  destruct t; simpl; repeat case_match; intros Heq; by simplify_eq.
Qed.

(** *** The setter, path by path *)

Lemma set_live_instance_attr_by_name_eq w instance_name attr_name value :
  set_live_instance_attr_by_name instance_name attr_name value w
  = match live_instances w !! instance_name with
    | None => (Ok VNone, with_log (λ l, l ++ [InstanceDoesNotExist instance_name]) w)
    | Some o =>
        match present (vars_of w o !! attr_name) with
        | None => (Ok VNone, with_log (λ l, l ++ [AttributeDoesNotExist attr_name o]) w)
        | Some cur => write o attr_name cur value w
        end
    end.
Proof.
  unfold set_live_instance_attr_by_name. step_bind.
  destruct (live_instances w !! instance_name) as [o|] eqn:Hin.
  2: { by rewrite get_live_instance_by_name_missing. }
  rewrite (get_live_instance_by_name_found _ _ _ Hin).
  step_bind. rewrite get_live_instance_attr_by_name_eq.
  destruct (vars_of w o !! attr_name) as [cur|] eqn:Hcur; [|reflexivity].
  assert (Hrest :
    (c ← getattr o attr_name;
     d ← vars o;
     value ← lift (dispatch (py_type c) value d attr_name);
     match value with
     | None => ret VNone
     | Some value =>
         try_except
           (value ← lift (call_type (py_type c) value); setattr o attr_name value)
           (λ e, warn (FailedToUpdate e);; ret VNone)
     end) w
    = write o attr_name cur value w).
  { unfold write, getattr, vars, setattr. unfold_M. rewrite Hcur.
    destruct (dispatch _ _ _ _) as [[v|]|e]; try reflexivity.
    destruct (call_type _ v); reflexivity. }
  destruct cur; try exact Hrest. reflexivity.
Qed.

(** The attributes after [write]: one attribute of one instance, at most,
    has a new value, of the type of the old one. *)
Lemma vars_of_write o attr_name cur value w o' :
  vars_of (write o attr_name cur value w).2 o' = vars_of w o'
  ∨ ∃ v', o' = o ∧ py_type v' = py_type cur
          ∧ vars_of (write o attr_name cur value w).2 o' = <[attr_name := v']> (vars_of w o).
Proof.
  unfold write.
  destruct (dispatch _ _ _ _) as [[v|]|e]; try by left.
  destruct (call_type (py_type cur) v) as [v'|e] eqn:Hc; [|by left].
  cbn [snd]. rewrite vars_of_setattr. case_decide as Ho; [subst o'|by left].
  right. exists v'. by apply call_type_type in Hc.
Qed.

Lemma set_live_instance_attr_by_name_tables w instance_name attr_name value :
  let w' := (set_live_instance_attr_by_name instance_name attr_name value w).2 in
  live_instances w' = live_instances w ∧ cls_instances w' = cls_instances w.
Proof.
  cbn zeta. rewrite set_live_instance_attr_by_name_eq.
  destruct (live_instances w !! instance_name) as [o|]; [|done].
  destruct (present (vars_of w o !! attr_name)) as [cur|]; [|done].
  unfold write. destruct (dispatch _ _ _ _) as [[v|]|e]; try done.
  by destruct (call_type _ v).
Qed.

(** *** Registration *)

Lemma same_registry_refl w : same_registry w w.
Proof. by repeat split. Qed.

Lemma same_registry_setattr w w' o a v :
  same_registry w w' → same_registry w (setattr o a v w').2.
Proof. intros (?&?&?&?&?&?). by repeat split. Qed.

(** *** Where a class's [_instances] is found *)

Lemma first_with_instances_None w l :
  first_with_instances w l = None → ∀ c, c ∈ l → cls_instances w !! c = None.
Proof.
  induction l as [|c' l IH]; simpl; [intros _ c Hc; by apply elem_of_nil in Hc|].
  destruct (cls_instances w !! c') eqn:Hc'; [done|].
  intros Hl c [->|Hc]%elem_of_cons; [done|by apply IH].
Qed.

Lemma first_with_instances_Some w l c :
  first_with_instances w l = Some c → c ∈ l ∧ is_Some (cls_instances w !! c).
Proof.
  induction l as [|c' l IH]; simpl; [done|].
  destruct (cls_instances w !! c') eqn:Hc'.
  - intros [= <-]. split; [left|by rewrite Hc'].
  - intros [Hin Hs]%IH. split; [by right|done].
Qed.

(** The class found depends on which classes of the list have a list, not
    on what the lists hold. *)
Lemma first_with_instances_ext w w' l :
  (∀ c, c ∈ l → is_Some (cls_instances w' !! c) ↔ is_Some (cls_instances w !! c)) →
  first_with_instances w' l = first_with_instances w l.
Proof.
  induction l as [|c l IH]; simpl; [done|]. intros Hext.
  assert (Hc := Hext c ltac:(left)).
  destruct (cls_instances w !! c) eqn:E, (cls_instances w' !! c) eqn:E'; try done.
  - destruct Hc as [_ Hc]. by destruct Hc.
  - destruct Hc as [Hc _]. by destruct Hc.
  - apply IH. intros c' Hc'. apply Hext. by right.
Qed.

Lemma instances_owner_None w cls :
  instances_owner w cls = None → cls_instances w !! cls = None.
Proof. intros H. apply (first_with_instances_None w _ H). left. Qed.

Lemma class_instances_owner w cls c d :
  instances_owner w cls = Some c → cls_instances w !! c = Some (class_instances w cls d).
Proof.
  intros H. unfold class_instances. rewrite H.
  apply first_with_instances_Some in H as [_ [l ->]]. done.
Qed.

Lemma instances_owner_same w w' cls :
  cls_mro w' = cls_mro w → cls_instances w' = cls_instances w →
  instances_owner w' cls = instances_owner w cls.
Proof.
  intros Hm Hc. unfold instances_owner, mro_of. rewrite Hm.
  apply first_with_instances_ext. intros c _. by rewrite Hc.
Qed.

Lemma class_instances_same w w' cls d :
  cls_mro w' = cls_mro w → cls_instances w' = cls_instances w →
  class_instances w' cls d = class_instances w cls d.
Proof.
  intros Hm Hc. unfold class_instances.
  by rewrite (instances_owner_same _ _ _ Hm Hc), Hc.
Qed.

(** The loop of [load_values_into_instance]: the saved attributes are laid
    over those the instance has; nothing else changes. *)
Lemma load_values_into_instance_spec instance saved w :
  ∃ w', load_values_into_instance instance saved w = (Ok instance, w')
        ∧ same_registry w w'
        ∧ ∀ o, vars_of w' o
               = if decide (instance = o) then saved ∪ vars_of w instance else vars_of w o.
Proof.
  unfold load_values_into_instance, for_items, fold_items.
  cut (∃ w', map_fold (λ k v (rest : M unit), acc ← rest;
                         (λ attr value _, setattr instance attr value;; ret tt) k v acc)
               (ret tt) saved w = (Ok tt, w')
             ∧ same_registry w w'
             ∧ ∀ o, vars_of w' o
                    = if decide (instance = o) then saved ∪ vars_of w instance
                      else vars_of w o).
  { intros (w' & Hrun & Hsame & Hvars). exists w'. split; [|done].
    step_bind. by rewrite Hrun. }
  revert w. induction saved as [|attr value saved Hfresh Hfold IH] using map_first_key_ind.
  - intros w. exists w. rewrite map_fold_empty. split; [done|].
    split; [apply same_registry_refl|].
    intros o. case_decide; [subst; by rewrite (left_id_L ∅ (∪))|done].
  - intros w. rewrite map_fold_insert_first_key by done.
    destruct (IH w) as (w1 & Hrun & Hsame & Hvars).
    exists (setattr instance attr value w1).2.
    split; [step_bind; by rewrite Hrun|].
    split; [by apply same_registry_setattr|].
    intros o. rewrite vars_of_setattr. case_decide as Ho.
    + rewrite Hvars, decide_True by done. by rewrite insert_union_l.
    + by rewrite Hvars, decide_False.
Qed.

Lemma load_values_into_instance_result instance saved w :
  load_values_into_instance instance saved w
  = (Ok instance, (load_values_into_instance instance saved w).2).
Proof.
  destruct (load_values_into_instance_spec instance saved w) as (w' & -> & _). done.
Qed.

Lemma loaded_spec name instance w :
  same_registry w (loaded name instance w)
  ∧ ∀ o, vars_of (loaded name instance w) o
         = if decide (instance = o)
           then default ∅ (saved_for w name) ∪ vars_of w instance
           else vars_of w o.
Proof.
  unfold loaded. destruct (saved_for w name) as [saved|]; simpl.
  - destruct (load_values_into_instance_spec instance saved w) as (w' & -> & Hs & Hv).
    done.
  - split; [apply same_registry_refl|].
    intros o. case_decide; [subst; by rewrite (left_id_L ∅ (∪))|done].
Qed.

(** [register_instance] under a name that is taken. *)
Lemma register_instance_taken w name instance other :
  live_instances w !! name = Some other →
  register_instance name instance w = (Raise ValueError, w).
Proof.
  intros Hin. unfold register_instance. unfold_M. by rewrite Hin.
Qed.

(** [register_instance] under a name that is free: the saved attributes are
    put on the instance, then the instance enters the tables. *)
Lemma register_instance_free w name instance :
  live_instances w !! name = None →
  register_instance name instance w = (Ok tt, enter name instance (loaded name instance w)).
Proof.
  intros Hfree. unfold register_instance.
  unfold mbind at 1, M_bind at 1, bind at 1, gets at 1. rewrite Hfree.
  unfold mbind at 1, M_bind at 1, bind at 1, gets at 1.
  step_bind.
  assert (Hload :
    match file_handler w with
    | Some {| loaded_values := Some lv |} =>
        match lv !! "live_instances" with
        | Some saved => load_values_into_instance instance (default ∅ (saved !! name))
        | None => ret instance
        end
    | _ => ret instance
    end w = (Ok instance, loaded name instance w)).
  { unfold loaded, saved_for.
    destruct (file_handler w) as [[[lv|]]|]; [|done..].
    destruct (lv !! "live_instances") as [saved|]; [|done].
    apply load_values_into_instance_result. }
  rewrite Hload. unfold enter. unfold_M. cbv beta iota zeta.
  set (w1 := loaded name instance w).
  set (w2 := with_live_instances (insert name instance) w1).
  assert (Ho : instances_owner w2 (obj_class instance)
               = instances_owner w1 (obj_class instance))
    by (by apply instances_owner_same).
  assert (Hc : class_instances w2 (obj_class instance) []
               = class_instances w1 (obj_class instance) [])
    by (by apply class_instances_same).
  rewrite Ho.
  destruct (instances_owner w1 (obj_class instance)) as [c|] eqn:Hown; cbn [default].
  - by rewrite Hc.
  - unfold class_instances. by rewrite Hown.
Qed.

Lemma enter_loaded_tables w name instance :
  live_instances (enter name instance (loaded name instance w))
  = <[name := instance]> (live_instances w)
  ∧ cls_instances (enter name instance (loaded name instance w))
    = <[default (obj_class instance) (instances_owner w (obj_class instance)) :=
          class_instances w (obj_class instance) [] ++ [instance]]> (cls_instances w)
  ∧ live_classes (enter name instance (loaded name instance w)) = live_classes w.
Proof.
  destruct (loaded_spec name instance w) as [(Hlc & Hli & _ & Hci & _ & Hm) _].
  unfold enter. simpl.
  by rewrite Hli, Hci, Hlc, (instances_owner_same _ _ _ Hm Hci),
    (class_instances_same _ _ _ _ Hm Hci).
Qed.

Lemma enter_loaded_mro w name instance :
  cls_mro (enter name instance (loaded name instance w)) = cls_mro w.
Proof. by destruct (loaded_spec name instance w) as [(_ & _ & _ & _ & _ & Hm) _]. Qed.

(** The class whose list receives the instance has a list afterwards, and
    no other class gains or loses one. *)
Lemma first_with_instances_insert w w' tgt l0 l :
  cls_instances w' = <[tgt := l0]> (cls_instances w) →
  tgt ∉ l ∨ is_Some (cls_instances w !! tgt) →
  first_with_instances w' l = first_with_instances w l.
Proof.
  intros Hci Htgt. apply first_with_instances_ext. intros c Hc. rewrite Hci.
  destruct (decide (c = tgt)) as [->|Hne].
  - rewrite lookup_insert_eq. destruct Htgt as [Htgt|Htgt]; [done|].
    split; [done|by eexists].
  - by rewrite lookup_insert_ne.
Qed.

(** C5: with a file handler whose loaded values hold attributes for the
    name, registration under that (free) name succeeds.  The saved
    attributes are first put on the instance, each at its saved value
    whatever the instance held, while the name is still out of the table;
    then the instance enters the tables.  Afterwards the instance is in the
    table with the saved attributes laid over its own, and the accessor
    reads the saved values. *)
Theorem register_instance_applies_snapshot w name instance lv saved sattrs :
  live_instances w !! name = None →
  file_handler w = Some {| loaded_values := Some lv |} →
  lv !! "live_instances" = Some saved →
  saved !! name = Some sattrs →
  let w1 := (load_values_into_instance instance sattrs w).2 in
  let w' := (register_instance name instance w).2 in
  (register_instance name instance w).1 = Ok tt
  ∧ live_instances w1 !! name = None
  ∧ vars_of w1 instance = sattrs ∪ vars_of w instance
  ∧ w' = enter name instance w1
  ∧ live_instances w' !! name = Some instance
  ∧ vars_of w' instance = sattrs ∪ vars_of w instance
  ∧ ∀ a v, sattrs !! a = Some v →
      vars_of w' instance !! a = Some v
      ∧ (get_live_instance_attr_by_name (Some instance) a w').1 = Ok v.
Proof.
  intros Hfree Hfh Hlv Hsaved w1 w'. subst w1 w'.
  rewrite (register_instance_free w name instance Hfree). cbn [fst snd].
  assert (Hl : loaded name instance w = (load_values_into_instance instance sattrs w).2).
  { unfold loaded, saved_for. by rewrite Hfh, Hlv, Hsaved. }
  rewrite Hl.
  destruct (load_values_into_instance_spec instance sattrs w)
    as (w1 & -> & (_ & Hli & _) & Hvars). cbn [snd].
  specialize (Hvars instance). rewrite decide_True in Hvars by done.
  assert (Hv : vars_of (enter name instance w1) instance = sattrs ∪ vars_of w instance)
    by exact Hvars.
  split; [done|]. split; [by rewrite Hli|]. split; [done|]. split; [done|].
  split; [apply lookup_insert_eq|]. split; [done|].
  intros a v Ha.
  assert (Hlook : vars_of (enter name instance w1) instance !! a = Some v).
  { rewrite Hv. by apply lookup_union_Some_l. }
  split; [done|]. by apply get_live_instance_attr_by_name_value.
Qed.

(** C1: registering under a name already in the instance table raises
    [ValueError] (the duplicate-name error) and the whole state is the one
    before the call: the instance table, every class's [_instances] and the
    attributes of the instance handed in; nothing is loaded, nothing is
    appended. *)
Theorem register_instance_duplicate w name instance other :
  live_instances w !! name = Some other →
  (register_instance name instance w).1 = Raise ValueError
  ∧ (register_instance name instance w).2 = w
  ∧ live_instances (register_instance name instance w).2 = live_instances w
  ∧ cls_instances (register_instance name instance w).2 = cls_instances w
  ∧ vars_of (register_instance name instance w).2 instance = vars_of w instance.
Proof.
  intros Hin. by rewrite (register_instance_taken _ _ _ _ Hin).
Qed.

(** *** Writing an attribute *)

(** C9: an attribute that exists and holds [None] cannot be written: the
    setter returns [None], and only the warning log grows; the instance's
    attributes are as before. *)
Theorem set_attr_of_none_attribute w instance_name attr_name value o :
  live_instances w !! instance_name = Some o →
  vars_of w o !! attr_name = Some VNone →
  set_live_instance_attr_by_name instance_name attr_name value w
  = (Ok VNone, with_log (λ l, l ++ [AttributeDoesNotExist attr_name o]) w)
  ∧ obj_dict (set_live_instance_attr_by_name instance_name attr_name value w).2 = obj_dict w.
Proof.
  intros Hin Hattr. rewrite set_live_instance_attr_by_name_eq, Hin, Hattr. done.
Qed.

(** C3, as the code has it: whenever the setter returns, it returns [None],
    on the successful write as on every failure; an exception leaves it only
    when the checker's coercion raised it. *)
Theorem set_attr_returns_none w instance_name attr_name value :
  (set_live_instance_attr_by_name instance_name attr_name value w).1 = Ok VNone
  ∨ ∃ e o cur,
      (set_live_instance_attr_by_name instance_name attr_name value w).1 = Raise e
      ∧ live_instances w !! instance_name = Some o
      ∧ vars_of w o !! attr_name = Some cur
      ∧ dispatch (py_type cur) value (vars_of w o) attr_name = Raise e.
Proof.
  rewrite set_live_instance_attr_by_name_eq.
  destruct (live_instances w !! instance_name) as [o|]; [|by left].
  destruct (present (vars_of w o !! attr_name)) as [cur|] eqn:Hcur; [|by left].
  apply present_Some in Hcur as [Hcur _]. unfold write.
  destruct (dispatch (py_type cur) value (vars_of w o) attr_name) as [[v|]|e] eqn:Hd.
  - destruct (call_type (py_type cur) v); by left.
  - by left.
  - right. by exists e, o, cur.
Qed.

(** C4: whatever the call does, an attribute that had a value before it has
    a value of the same type after it, on every instance. *)
Theorem set_attr_preserves_type w instance_name attr_name value o a v :
  vars_of w o !! a = Some v →
  ∃ v', vars_of (set_live_instance_attr_by_name instance_name attr_name value w).2 o !! a = Some v'
        ∧ py_type v' = py_type v.
Proof.
  intros Hv. rewrite set_live_instance_attr_by_name_eq.
  destruct (live_instances w !! instance_name) as [o'|]; [|by exists v].
  destruct (present (vars_of w o' !! attr_name)) as [cur|] eqn:Hcur; [|by exists v].
  apply present_Some in Hcur as [Hcur _].
  destruct (vars_of_write o' attr_name cur value w o) as [->|(v' & -> & Hty & ->)];
    [by exists v|].
  destruct (decide (attr_name = a)) as [->|Hne].
  - exists v'. rewrite lookup_insert_eq. split; [done|]. congruence.
  - exists v. by rewrite lookup_insert_ne.
Qed.

(** C2: on a registered instance and an attribute holding a [bool] or an
    [int], the raw input is well-formed when its coercion (the checker's
    handler, then the attribute's type) gives a value, and malformed when
    the coercion raises.  After the setter, the accessor reads the coerced
    value in the first case and the value from before the call in the
    second, the instance's attributes being untouched. *)
Theorem set_then_get_scalar w instance_name attr_name value o cur :
  live_instances w !! instance_name = Some o →
  vars_of w o !! attr_name = Some cur →
  py_type cur = TBool ∨ py_type cur = TInt →
  let handle := match py_type cur with TBool => handle_bool | _ => handle_int end in
  let w' := (set_live_instance_attr_by_name instance_name attr_name value w).2 in
  match handle value ≫= call_type (py_type cur) with
  | Ok v => (get_live_instance_attr_by_name (Some o) attr_name w').1 = Ok v
  | Raise _ =>
      (get_live_instance_attr_by_name (Some o) attr_name w').1 = Ok cur
      ∧ vars_of w' o = vars_of w o
  end.
Proof.
  intros Hin Hcur Hty handle w'. subst w'.
  assert (Hnn : py_type cur ≠ TNoneType) by (destruct Hty; congruence).
  rewrite set_live_instance_attr_by_name_eq, Hin, Hcur, (present_typed _ Hnn).
  assert (Hd : dispatch (py_type cur) value (vars_of w o) attr_name
               = (v ← handle value; Ok (Some v))).
  { subst handle. by destruct Hty as [-> | ->]. }
  unfold write. rewrite Hd.
  destruct (handle value) as [v0|e]; cbn [mbind outcome_bind].
  2: { split; [|done]. by apply get_live_instance_attr_by_name_value. }
  destruct (call_type (py_type cur) v0) as [v'|e] eqn:Hc; cbn [snd].
  - apply get_live_instance_attr_by_name_value.
    rewrite vars_of_setattr, decide_True by done. apply lookup_insert_eq.
  - split; [|done]. by apply get_live_instance_attr_by_name_value.
Qed.

(** *** Registering a class *)

Lemma map_to_list_key {A} (m : gmap string A) k v :
  m !! k = Some v →
  length (filter (λ kv, kv.1 = k) (map_to_list m)) = 1%nat.
Proof.
  intros Hk. rewrite <-(map_to_list_delete m k v Hk).
  rewrite filter_cons_True by done.
  destruct (filter _ (map_to_list (delete k m))) as [|[k' v'] l] eqn:Hf; [done|].
  assert (Hel : (k', v') ∈ filter (λ kv : string * A, kv.1 = k) (map_to_list (delete k m))).
  { rewrite Hf. left. }
  apply list_elem_of_filter in Hel as [Hkey Hel]. simpl in Hkey. subst k'.
  apply elem_of_map_to_list in Hel. by rewrite lookup_delete_eq in Hel.
Qed.

(** C8: [register_class] returns the class it was given and never raises;
    registering the same class again changes nothing, and the class table
    then has exactly one entry under that name, the class; a class
    registered later under the same name takes the entry over. *)
Theorem register_class_idempotent w cls :
  let w1 := (register_class cls w).2 in
  (register_class cls w).1 = Ok cls
  ∧ register_class cls w1 = (Ok cls, w1)
  ∧ live_classes w1 !! cls_name cls = Some cls
  ∧ length (filter (λ kv, kv.1 = cls_name cls) (map_to_list (live_classes w1))) = 1%nat
  ∧ ∀ cls', cls_name cls' = cls_name cls →
      live_classes (register_class cls' w1).2 = <[cls_name cls := cls']> (live_classes w).
Proof.
  intros w1. subst w1. rewrite !register_class_eq. cbn [fst snd].
  assert (Hl : live_classes (with_live_classes (insert (cls_name cls) cls) w) !! cls_name cls
               = Some cls) by apply lookup_insert_eq.
  repeat split.
  - destruct w as [lc li fh od ci lg]. unfold with_live_classes. simpl.
    by rewrite insert_insert_eq.
  - exact Hl.
  - by apply map_to_list_key with cls.
  - intros cls' Hname. simpl. rewrite Hname. apply insert_insert_eq.
Qed.

(** *** Serialization *)

(** The inner loop never takes the [except] branch: it is the filter on the
    attribute names. *)
Lemma clean_eq (attributes : attrs) :
  clean attributes = Ok (filter (λ kv, skipped kv.1 = false) attributes).
Proof.
  unfold clean.
  induction attributes as [|attr value d Hfresh Hfold IH] using map_first_key_ind.
  - by rewrite map_fold_empty, map_filter_empty.
  - rewrite map_fold_insert_first_key by done. rewrite IH.
    cbn [mbind outcome_bind]. fold (skipped attr).
    destruct (skipped attr) eqn:Hs.
    + rewrite map_filter_insert_not'; [done|simpl; congruence|].
      intros y Hy. congruence.
    + unfold dict_setitem. by rewrite map_filter_insert_True.
Qed.

Lemma serialize_instances_eq w :
  serialize_instances w
  = (Ok {[ "live_instances" :=
             (λ o, filter (λ kv, skipped kv.1 = false) (vars_of w o)) <$> live_instances w ]},
     w).
Proof.
  unfold serialize_instances, fold_items.
  unfold mbind at 1, M_bind at 1, bind at 1, gets at 1.
  step_bind.
  cut (map_fold (λ k v (rest : M snapshot), acc ← rest;
                   (λ instance_name live_instance live,
                      attributes ← vars live_instance;
                      clean_attrs ← lift (clean attributes);
                      ret (<[instance_name := clean_attrs]> live)) k v acc)
         (ret ∅) (live_instances w) w
       = (Ok ((λ o, filter (λ kv, skipped kv.1 = false) (vars_of w o)) <$> live_instances w),
          w)).
  { by intros ->. }
  induction (live_instances w) as [|name o insts Hfresh Hfold IH] using map_first_key_ind.
  - by rewrite map_fold_empty, fmap_empty.
  - rewrite map_fold_insert_first_key by done.
    step_bind. rewrite IH.
    unfold vars. unfold_M. by rewrite clean_eq, fmap_insert.
Qed.

(** C6: the result is the one-key dict [{"live_instances": live}]; [live]
    has exactly the registered names, and under each name the attributes of
    the instance whose names start with neither ["__"] nor
    ["_tracked_attrs"], with their values, and only those.  The instance ["x"] with [a = 1],
    [b = "hi"] and a [_tracked_attrs] serializes without the latter. *)
Theorem serialize_instances_shape w :
  (∃ live,
     serialize_instances w = (Ok {[ "live_instances" := live ]}, w)
     ∧ dom live = dom (live_instances w)
     ∧ ∀ name o, live_instances w !! name = Some o →
         ∃ d, live !! name = Some d
              ∧ ∀ attr v, d !! attr = Some v
                          ↔ vars_of w o !! attr = Some v
                            ∧ startswith attr "__" = false
                            ∧ startswith attr "_tracked_attrs" = false)
  ∧ (serialize_instances Example.w_x).1
    = Ok {[ "live_instances" := {[ "x" := {[ "a" := VInt 1; "b" := VStr "hi" ]} ]} ]}.
Proof.
  split; [|by vm_compute].
  eexists. split; [apply serialize_instances_eq|]. split; [apply dom_fmap_L|].
  intros name o Hin. eexists. split; [by rewrite lookup_fmap, Hin|].
  intros attr v. rewrite map_lookup_filter_Some. unfold skipped. simpl.
  by rewrite orb_false_iff.
Qed.

(** C10: storing under a string key raises nothing, so nothing is ever
    replaced by its text: an attribute of a registered instance that is not
    skipped is in the result under the instance's name with the very value
    the instance holds. *)
Theorem serialize_instances_values_unchanged w name o attr v :
  live_instances w !! name = Some o →
  vars_of w o !! attr = Some v →
  startswith attr "__" = false →
  startswith attr "_tracked_attrs" = false →
  (∀ d e, dict_setitem d attr v ≠ Raise e)
  ∧ (∃ d, clean (vars_of w o) = Ok d ∧ d !! attr = Some v)
  ∧ ∃ out live d,
      (serialize_instances w).1 = Ok out
      ∧ out !! "live_instances" = Some live
      ∧ live !! name = Some d
      ∧ d !! attr = Some v.
Proof.
  intros Hin Hv H1 H2.
  assert (Hf : filter (λ kv : string * pyval, skipped kv.1 = false) (vars_of w o) !! attr
               = Some v).
  { apply map_lookup_filter_Some. split; [done|]. unfold skipped. simpl. by rewrite H1, H2. }
  split; [done|]. split; [rewrite clean_eq; by eexists|].
  rewrite serialize_instances_eq. do 3 eexists. split; [done|].
  split; [apply lookup_singleton_eq|]. split; [by rewrite lookup_fmap, Hin|]. done.
Qed.

(** *** Instances of a class *)

Lemma get_live_instances_eq w class_name :
  get_live_instances class_name w
  = (Ok (match live_classes w !! class_name with
         | Some cls => Some (class_instances w cls [])
         | None => None
         end), w).
Proof.
  unfold get_live_instances, get_live_class_by_name. unfold_M.
  by destruct (live_classes w !! class_name).
Qed.

Lemma set_live_instance_attr_by_name_mro w instance_name attr_name value :
  cls_mro (set_live_instance_attr_by_name instance_name attr_name value w).2 = cls_mro w.
Proof.
  rewrite set_live_instance_attr_by_name_eq.
  destruct (live_instances w !! instance_name) as [o|]; [|done].
  destruct (present (vars_of w o !! attr_name)) as [cur|]; [|done].
  unfold write. destruct (dispatch _ _ _ _) as [[v|]|e]; try done.
  by destruct (call_type _ v).
Qed.

Lemma registry_inv_same_tables w0 w w' :
  live_instances w' = live_instances w → cls_instances w' = cls_instances w →
  cls_mro w' = cls_mro w →
  registry_inv w0 w → registry_inv w0 w'.
Proof. unfold registry_inv. intros -> -> ->. done. Qed.

Lemma reachable_registry_inv w0 w : reachable w0 w → registry_inv w0 w.
Proof.
  induction 1 as [|w cls _ IH|w name instance _ IH|w instance_name _ IH
                 |w instance attr_name _ IH|w instance_name attr_name value _ IH
                 |w fh _ IH|w o a v _ IH].
  - by split.
  - by apply (registry_inv_same_tables w0 w).
  - destruct (live_instances w !! name) as [other|] eqn:Hname.
    + by rewrite (register_instance_taken _ _ _ _ Hname).
    + rewrite (register_instance_free _ _ _ Hname). cbn [snd].
      destruct (enter_loaded_tables w name instance) as (Hli & Hci & _).
      destruct IH as [Hm IH].
      split; [by rewrite enter_loaded_mro|].
      intros cls H0 Hnone. rewrite Hli in Hnone. rewrite Hci.
      apply map_Forall_insert in Hnone as [Hcls Hnone]; [|done].
      specialize (IH cls H0 Hnone).
      rewrite lookup_insert_ne; [done|].
      destruct (instances_owner w (obj_class instance)) as [c|] eqn:Ho; simpl; [|done].
      apply first_with_instances_Some in Ho as [_ [l Hl]]. intros Heq. congruence.
  - apply (registry_inv_same_tables w0 w); [| | |done];
      unfold get_live_instance_by_name; unfold_M;
      by destruct (live_instances w !! instance_name).
  - apply (registry_inv_same_tables w0 w); [| | |done];
      (destruct instance as [o|]; [|done]);
      rewrite get_live_instance_attr_by_name_eq;
      by destruct (vars_of w o !! attr_name) as [[]|].
  - apply (registry_inv_same_tables w0 w); [| | |done];
      [apply set_live_instance_attr_by_name_tables..
      |apply set_live_instance_attr_by_name_mro].
  - by apply (registry_inv_same_tables w0 w).
  - by apply (registry_inv_same_tables w0 w).
Qed.

(** C7, where the code departs from it.  [Sub], a subclass of [Base], is
    registered and no instance of [Sub] is: before any registration
    [get_live_instances("Sub")] gives the empty list; once an instance [b]
    of [Base] is registered it gives [[b]], the list of [Base], which
    [getattr(cls, "_instances", [])] finds through the ancestors of
    [Sub]. *)
Theorem get_live_instances_inherited_list :
  live_classes Example.w_sub !! "Sub" = Some Example.Sub
  ∧ map_Forall (λ _ o, obj_class o ≠ Example.Sub) (live_instances Example.w_sub)
  ∧ (get_live_instances "Sub" Example.w_sub_classes).1 = Ok (Some [])
  ∧ (get_live_instances "Sub" Example.w_sub).1 = Ok (Some [Example.b])
  ∧ (get_live_instances "Base" Example.w_sub).1 = Ok (Some [Example.b]).
Proof.
  split; [by vm_compute|]. split; [|by vm_compute].
  apply (bool_decide_unpack _). by vm_compute.
Qed.

End Properties.

(** ** Further properties of the manager *)

Section Further.
Context `{TC : TypeChecker}.

Lemma call_type_same_type t v :
  py_type v = t → t ≠ TNoneType → call_type t v = Ok v.
Proof. intros <- Hnn. by destruct v. Qed.

(** *** Registration and lookup *)

(** X1: after a registration under a free name, the lookup of the name
    gives the instance and logs nothing, and every other name is bound as
    before. *)
Theorem register_instance_then_lookup w name instance :
  live_instances w !! name = None →
  let w' := (register_instance name instance w).2 in
  get_live_instance_by_name name w' = (Ok (Some instance), w')
  ∧ ∀ other, other ≠ name → live_instances w' !! other = live_instances w !! other.
Proof.
  intros Hfree w'. subst w'. rewrite (register_instance_free _ _ _ Hfree). cbn [snd].
  destruct (enter_loaded_tables w name instance) as (Hli & _ & _).
  split.
  - apply get_live_instance_by_name_found. rewrite Hli. apply lookup_insert_eq.
  - intros other Hne. rewrite Hli. by apply lookup_insert_ne.
Qed.

(** X2: where no saved attributes apply to the name (no file handler, no
    loaded values, no ["live_instances"] key, or no entry for the name), a
    registration leaves the attributes of every object as they were. *)
Theorem register_instance_nothing_saved w name instance :
  live_instances w !! name = None →
  file_handler w = None
  ∨ file_handler w = Some {| loaded_values := None |}
  ∨ (∃ lv, file_handler w = Some {| loaded_values := Some lv |}
           ∧ (lv !! "live_instances" = None
              ∨ ∃ saved, lv !! "live_instances" = Some saved ∧ saved !! name = None)) →
  (register_instance name instance w).1 = Ok tt
  ∧ ∀ o, vars_of (register_instance name instance w).2 o = vars_of w o.
Proof.
  intros Hfree Hnone. rewrite (register_instance_free _ _ _ Hfree). cbn [fst snd].
  split; [done|]. intros o.
  assert (Hs : default ∅ (saved_for w name) = ∅).
  { unfold saved_for.
    destruct Hnone as [-> | [-> | (lv & -> & [-> | (saved & -> & ->)])]]; done. }
  change (vars_of (enter name instance (loaded name instance w)) o)
    with (vars_of (loaded name instance w) o).
  destruct (loaded_spec name instance w) as [_ Hv]. rewrite Hv, Hs.
  case_decide; [subst; by rewrite (left_id_L ∅ (∪))|done].
Qed.

(** X3: a registration under a free name appends the instance at the end
    of the list [get_live_instances] gives for the instance's own class, and
    for every registered class that finds [_instances] on the class whose
    list received the instance (through inheritance, for one); the list of
    a registered class that has the receiving class neither as itself nor
    among its ancestors is unchanged. *)
Theorem register_instance_appends w name instance class_name cls :
  live_instances w !! name = None →
  live_classes w !! class_name = Some cls →
  let tgt := default (obj_class instance) (instances_owner w (obj_class instance)) in
  let after := (get_live_instances class_name (register_instance name instance w).2).1 in
  ∃ l, (get_live_instances class_name w).1 = Ok (Some l)
       ∧ (cls = obj_class instance ∨ instances_owner w cls = Some tgt →
          after = Ok (Some (l ++ [instance])))
       ∧ (tgt ∉ mro_of w cls → after = Ok (Some l)).
Proof.
  intros Hfree Hcls tgt after. subst after.
  rewrite (register_instance_free _ _ _ Hfree). cbn [snd].
  rewrite !get_live_instances_eq. cbn [fst].
  destruct (enter_loaded_tables w name instance) as (_ & Hci & Hlc).
  pose proof (enter_loaded_mro w name instance) as Hm.
  fold tgt in Hci. rewrite Hlc, Hcls.
  assert (Htgt : tgt = default (obj_class instance) (instances_owner w (obj_class instance)))
    by done.
  clearbody tgt.
  set (w' := enter name instance (loaded name instance w)) in *.
  exists (class_instances w cls []). split; [done|].
  assert (Hshared : instances_owner w cls = Some tgt →
            class_instances w' cls []
            = class_instances w cls [] ++ [instance]).
  { intros Ho.
    assert (Hs : is_Some (cls_instances w !! tgt))
      by (by apply first_with_instances_Some in Ho as [_ ?]).
    assert (Ho' : instances_owner w' cls = Some tgt).
    { unfold instances_owner, mro_of. rewrite Hm.
      rewrite (first_with_instances_insert w w' tgt _ _ Hci); [done|by right]. }
    unfold class_instances at 1. rewrite Ho', Hci, lookup_insert_eq. cbn.
    f_equal. unfold class_instances at 2. rewrite Ho.
    destruct (instances_owner w (obj_class instance)) as [c|] eqn:Hc.
    - simpl in Htgt. subst tgt. unfold class_instances. by rewrite Hc.
    - simpl in Htgt. subst tgt.
      rewrite (instances_owner_None _ _ Hc) in Hs. by destruct Hs. }
  split.
  - intros [->|Ho]; [|by rewrite Hshared].
    destruct (instances_owner w (obj_class instance)) as [c|] eqn:Hc.
    + rewrite Hshared; [done|]. simpl in Htgt. by subst tgt.
    + assert (Ht : tgt = obj_class instance) by done.
      assert (Ho' : instances_owner w' (obj_class instance) = Some (obj_class instance)).
      { unfold instances_owner, mro_of. cbn [first_with_instances].
        by rewrite Hci, Ht, lookup_insert_eq. }
      unfold class_instances at 1. by rewrite Ho', Hci, Ht, lookup_insert_eq.
  - intros Hnot.
    assert (Ho' : instances_owner w' cls = instances_owner w cls).
    { unfold instances_owner, mro_of. rewrite Hm.
      apply (first_with_instances_insert w w' tgt _ _ Hci). by left. }
    unfold class_instances. rewrite Ho'.
    destruct (instances_owner w cls) as [c|] eqn:Hc; [|done].
    apply first_with_instances_Some in Hc as [Hin _].
    rewrite Hci, lookup_insert_ne; [done|]. intros ->. done.
Qed.

(** A class without ancestors finds [_instances] on itself or nowhere. *)
Lemma class_instances_no_ancestors w cls d :
  cls_mro w !! cls = None →
  default cls (instances_owner w cls) = cls
  ∧ class_instances w cls d = default d (cls_instances w !! cls).
Proof.
  intros Hm. unfold class_instances, instances_owner, mro_of. rewrite Hm. simpl.
  destruct (cls_instances w !! cls) eqn:E; simpl; by rewrite ?E.
Qed.

(** X4: in a run of a fresh manager where no class has ancestors in the
    model and none has [_instances] at the start, the [_instances] of a
    class holds exactly the registered instances of that class, one for each
    name they are registered under (in some order); so a registered
    instance is in the list of its class. *)
Theorem reachable_class_lists objs w :
  reachable (init objs ∅ ∅) w →
  (∀ cls, default [] (cls_instances w !! cls) ≡ₚ registered_of w cls)
  ∧ ∀ name o, live_instances w !! name = Some o →
      o ∈ default [] (cls_instances w !! obj_class o).
Proof.
  intros Hreach.
  assert (Hperm : ∀ cls, default [] (cls_instances w !! cls) ≡ₚ registered_of w cls).
  { assert (Hsame : ∀ w0 w1,
      live_instances w1 = live_instances w0 → cls_instances w1 = cls_instances w0 →
      (∀ cls, default [] (cls_instances w0 !! cls) ≡ₚ registered_of w0 cls) →
      ∀ cls, default [] (cls_instances w1 !! cls) ≡ₚ registered_of w1 cls).
    { intros w0 w1 Hli Hci H cls. unfold registered_of. rewrite Hli, Hci. apply H. }
    pose proof (reachable_registry_inv _ _ Hreach) as Hinv.
    induction Hreach as [|w cls' Hr IH|w name instance Hr IH|w instance_name Hr IH
                   |w instance attr_name Hr IH|w instance_name attr_name value Hr IH
                   |w fh Hr IH|w o a v Hr IH];
      try specialize (IH (reachable_registry_inv _ _ Hr)).
    - intros cls. unfold registered_of. simpl. by rewrite lookup_empty, map_to_list_empty.
    - by apply (Hsame w).
    - destruct (live_instances w !! name) as [other|] eqn:Hname.
      + by rewrite (register_instance_taken _ _ _ _ Hname).
      + rewrite (register_instance_free _ _ _ Hname). cbn [snd].
        destruct (enter_loaded_tables w name instance) as (Hli & Hci & _).
        assert (Hm : cls_mro w !! obj_class instance = None).
        { destruct (reachable_registry_inv _ _ Hr) as [-> _]. apply lookup_empty. }
        destruct (class_instances_no_ancestors w (obj_class instance) [] Hm) as [Ht Hl].
        rewrite Ht, Hl in Hci.
        intros cls. unfold registered_of. rewrite Hli, Hci.
        rewrite map_to_list_insert by done. rewrite fmap_cons. cbn [snd].
        destruct (decide (obj_class instance = cls)) as [Hc|Hc].
        * rewrite filter_cons_True by done. subst cls. rewrite lookup_insert_eq. simpl.
          rewrite <-Permutation_cons_append. constructor. apply IH.
        * rewrite filter_cons_False by done. rewrite lookup_insert_ne by done. apply IH.
    - apply (Hsame w); [| |done];
        unfold get_live_instance_by_name; unfold_M;
        by destruct (live_instances w !! instance_name).
    - apply (Hsame w); [| |done];
        (destruct instance as [o|]; [|done]);
        rewrite get_live_instance_attr_by_name_eq;
        by destruct (vars_of w o !! attr_name) as [[]|].
    - apply (Hsame w); [| |done]; apply set_live_instance_attr_by_name_tables.
    - by apply (Hsame w).
    - by apply (Hsame w). }
  split; [done|]. intros name o Hin. rewrite (Hperm (obj_class o)).
  unfold registered_of. apply list_elem_of_filter. split; [done|].
  apply list_elem_of_fmap. exists (name, o). split; [done|].
  by apply elem_of_map_to_list.
Qed.

(** X5: a name once bound stays bound to the same instance: no call of
    [register_class], [register_instance] or the setter rebinds or removes
    it. *)
Theorem registered_name_is_kept w bound o :
  live_instances w !! bound = Some o →
  (∀ cls, live_instances (register_class cls w).2 !! bound = Some o)
  ∧ (∀ name instance, live_instances (register_instance name instance w).2 !! bound = Some o)
  ∧ (∀ instance_name attr_name value,
       live_instances (set_live_instance_attr_by_name instance_name attr_name value w).2
         !! bound = Some o).
Proof.
  intros Hb. split; [done|]. split.
  - intros name instance.
    destruct (live_instances w !! name) as [other|] eqn:Hname.
    + by rewrite (register_instance_taken _ _ _ _ Hname).
    + rewrite (register_instance_free _ _ _ Hname). cbn [snd].
      destruct (enter_loaded_tables w name instance) as (-> & _ & _).
      rewrite lookup_insert_ne; [done|]. intros ->. congruence.
  - intros instance_name attr_name value.
    destruct (set_live_instance_attr_by_name_tables w instance_name attr_name value)
      as [-> _].
    done.
Qed.

(** X6: registering a class makes [get_live_class_by_name] give it under its
    [__name__], whatever class held the name, leaves every other name, the
    instance table and the objects alone, and [get_live_instances] under the
    name then gives the list of the new class. *)
Theorem register_class_then_lookup w cls :
  let w' := (register_class cls w).2 in
  (get_live_class_by_name (cls_name cls) w').1 = Ok (Some cls)
  ∧ (∀ other, other ≠ cls_name cls →
       (get_live_class_by_name other w').1 = (get_live_class_by_name other w).1)
  ∧ live_instances w' = live_instances w
  ∧ obj_dict w' = obj_dict w
  ∧ (get_live_instances (cls_name cls) w').1
    = Ok (Some (class_instances w cls [])).
Proof.
  cbn zeta. rewrite register_class_eq. cbn [snd].
  unfold get_live_class_by_name. unfold_M. cbn [fst]. simpl.
  split; [by rewrite lookup_insert_eq|].
  split; [intros other Hne; by rewrite lookup_insert_ne|].
  split; [done|]. split; [done|].
  rewrite get_live_instances_eq. cbn [fst]. simpl. rewrite lookup_insert_eq.
  do 2 f_equal. by apply class_instances_same.
Qed.

(** X18: registering an instance registers no class: under a name that is
    not in the class table [get_live_instances] still gives [None]
    afterwards, also when the instance's own class has that name. *)
Theorem register_instance_registers_no_class w name instance class_name :
  live_classes w !! class_name = None →
  live_classes (register_instance name instance w).2 = live_classes w
  ∧ (get_live_instances class_name (register_instance name instance w).2).1 = Ok None.
Proof.
  intros Hcls.
  assert (Hlc : live_classes (register_instance name instance w).2 = live_classes w).
  { destruct (live_instances w !! name) as [other|] eqn:Hname.
    - by rewrite (register_instance_taken _ _ _ _ Hname).
    - rewrite (register_instance_free _ _ _ Hname). cbn [snd].
      by destruct (enter_loaded_tables w name instance) as (_ & _ & ->). }
  split; [done|]. rewrite get_live_instances_eq. cbn [fst]. by rewrite Hlc, Hcls.
Qed.

(** X19: [get_live_instances] gives [None] exactly for a name that is not
    in the class table.  In a run, for a registered class it gives the empty
    list when neither the class nor any of its ancestors had [_instances]
    at the start or has an instance of exactly that class registered. *)
Theorem get_live_instances_none_or_empty w0 w class_name :
  reachable w0 w →
  ((get_live_instances class_name w).1 = Ok None ↔ live_classes w !! class_name = None)
  ∧ (∀ cls, live_classes w !! class_name = Some cls →
       (∀ c, c ∈ mro_of w cls →
          cls_instances w0 !! c = None
          ∧ map_Forall (λ _ o, obj_class o ≠ c) (live_instances w)) →
       (get_live_instances class_name w).1 = Ok (Some [])).
Proof.
  intros Hreach. rewrite get_live_instances_eq. cbn [fst]. split.
  - destruct (live_classes w !! class_name); split; intros; by simplify_eq.
  - intros cls -> Hnone. do 2 f_equal.
    destruct (reachable_registry_inv w0 w Hreach) as [_ Hinv].
    unfold class_instances.
    destruct (instances_owner w cls) as [c|] eqn:Ho; [|done].
    apply first_with_instances_Some in Ho as [Hin [l Hl]].
    destruct (Hnone c Hin) as [H0 Hreg].
    rewrite (Hinv c H0 Hreg) in Hl. done.
Qed.

(** *** Loading *)

(** X7: [load_values_into_instance] returns the instance it was given and
    never raises; on it each saved attribute has its saved value, new
    attributes included, and every other attribute its old one; no other
    object and no table changes; loading the same attributes again changes
    nothing more. *)
Theorem load_values_into_instance_effect instance saved w :
  let w1 := (load_values_into_instance instance saved w).2 in
  (load_values_into_instance instance saved w).1 = Ok instance
  ∧ (∀ a, vars_of w1 instance !! a
          = match saved !! a with Some v => Some v | None => vars_of w instance !! a end)
  ∧ (∀ o, o ≠ instance → vars_of w1 o = vars_of w o)
  ∧ same_registry w w1
  ∧ ∀ o, vars_of (load_values_into_instance instance saved w1).2 o = vars_of w1 o.
Proof.
  cbn zeta.
  destruct (load_values_into_instance_spec instance saved w) as (w1 & -> & Hsame & Hv).
  cbn [fst snd]. split; [done|]. split.
  { intros a. rewrite Hv, decide_True by done. rewrite lookup_union.
    destruct (saved !! a), (vars_of w instance !! a); done. }
  split; [intros o Ho; by rewrite Hv, decide_False|]. split; [done|].
  intros o.
  destruct (load_values_into_instance_spec instance saved w1) as (w2 & -> & _ & Hv2).
  cbn [snd]. rewrite Hv2. case_decide as Ho; [subst o|done].
  rewrite Hv, decide_True by done.
  by rewrite (assoc_L (∪)), (idemp_L (∪)).
Qed.

(** X8: what [serialize_instances] gives can be loaded back: in a manager
    whose file handler has loaded that mapping, registering an object under
    a name that was serialized puts on it every attribute the mapping holds
    for the name, that is, every attribute of the serialized instance that
    is not skipped, at the value it had; the object's other attributes
    stay. *)
Theorem serialize_then_register w out name o w2 instance :
  (serialize_instances w).1 = Ok out →
  live_instances w !! name = Some o →
  file_handler w2 = Some {| loaded_values := Some out |} →
  live_instances w2 !! name = None →
  ∀ a,
    vars_of (register_instance name instance w2).2 instance !! a
    = if startswith a "__" || startswith a "_tracked_attrs"
      then vars_of w2 instance !! a
      else match vars_of w o !! a with
           | Some v => Some v
           | None => vars_of w2 instance !! a
           end.
Proof.
  intros Hout Hin Hfh Hfree a.
  rewrite serialize_instances_eq in Hout. cbn [fst] in Hout.
  injection Hout as <-.
  rewrite (register_instance_free _ _ _ Hfree). cbn [snd].
  change (vars_of (enter name instance (loaded name instance w2)) instance)
    with (vars_of (loaded name instance w2) instance).
  destruct (loaded_spec name instance w2) as [_ Hv]. rewrite Hv, decide_True by done.
  unfold saved_for. rewrite Hfh, lookup_singleton_eq, lookup_fmap, Hin. cbn.
  rewrite lookup_union. fold (skipped a).
  destruct (filter (λ kv : string * pyval, skipped kv.1 = false) (vars_of w o) !! a)
    as [v|] eqn:Hf.
  - apply map_lookup_filter_Some in Hf as [Hv' Hs]. simpl in Hs. rewrite Hs, Hv'.
    by destruct (vars_of w2 instance !! a).
  - apply map_lookup_filter_None in Hf.
    destruct (skipped a) eqn:Hs.
    + by destruct (vars_of w2 instance !! a).
    + destruct Hf as [->|Hf]; [by destruct (vars_of w2 instance !! a)|].
      destruct (vars_of w o !! a) as [v|] eqn:Hv'.
      * exfalso. by apply (Hf v).
      * by destruct (vars_of w2 instance !! a).
Qed.

(** *** The setter, case by case *)

(** The setter on an instance and an attribute that are found. *)
Lemma set_found w instance_name attr_name value o cur :
  live_instances w !! instance_name = Some o →
  vars_of w o !! attr_name = Some cur →
  cur ≠ VNone →
  set_live_instance_attr_by_name instance_name attr_name value w
  = write o attr_name cur value w.
Proof.
  intros Hin Hcur Hnn. rewrite set_live_instance_attr_by_name_eq, Hin, Hcur.
  by destruct cur.
Qed.

(** X9: the setter changes no table and no file handler; the only attribute
    it can change is the named attribute of the named instance; the log
    grows by one warning at most. *)
Theorem set_attr_frame w instance_name attr_name value :
  let w' := (set_live_instance_attr_by_name instance_name attr_name value w).2 in
  live_classes w' = live_classes w
  ∧ live_instances w' = live_instances w
  ∧ cls_instances w' = cls_instances w
  ∧ file_handler w' = file_handler w
  ∧ (∀ o a, vars_of w' o !! a ≠ vars_of w o !! a →
       live_instances w !! instance_name = Some o ∧ a = attr_name)
  ∧ (log w' = log w ∨ ∃ x, log w' = log w ++ [x]).
Proof.
  cbn zeta. rewrite set_live_instance_attr_by_name_eq.
  assert (Hlog : ∀ x,
    let w' := with_log (λ l, l ++ [x]) w in
    live_classes w' = live_classes w ∧ live_instances w' = live_instances w
    ∧ cls_instances w' = cls_instances w ∧ file_handler w' = file_handler w
    ∧ (∀ o a, vars_of w' o !! a ≠ vars_of w o !! a →
         live_instances w !! instance_name = Some o ∧ a = attr_name)
    ∧ (log w' = log w ∨ ∃ x, log w' = log w ++ [x])).
  { intros x. refine (conj eq_refl (conj eq_refl (conj eq_refl (conj eq_refl (conj _ _))))).
    - intros o a Hne. by destruct Hne.
    - right. by exists x. }
  assert (Hrefl :
    live_classes w = live_classes w ∧ live_instances w = live_instances w
    ∧ cls_instances w = cls_instances w ∧ file_handler w = file_handler w
    ∧ (∀ o a, vars_of w o !! a ≠ vars_of w o !! a →
         live_instances w !! instance_name = Some o ∧ a = attr_name)
    ∧ (log w = log w ∨ ∃ x, log w = log w ++ [x])).
  { refine (conj eq_refl (conj eq_refl (conj eq_refl (conj eq_refl (conj _ _))))).
    - intros o a Hne. by destruct Hne.
    - by left. }
  destruct (live_instances w !! instance_name) as [o|] eqn:Hin; [|apply Hlog].
  destruct (present (vars_of w o !! attr_name)) as [cur|]; [|apply Hlog].
  unfold write. destruct (dispatch _ _ _ _) as [[v|]|e]; [|exact Hrefl..].
  destruct (call_type (py_type cur) v) as [v'|e]; [|apply Hlog].
  cbn [snd]. refine (conj eq_refl (conj eq_refl (conj eq_refl (conj eq_refl (conj _ _))))).
  - intros o' a. rewrite vars_of_setattr. case_decide as Ho; [subst o'|done].
    destruct (decide (attr_name = a)) as [->|Ha]; [done|].
    rewrite lookup_insert_ne by done. intros Hne. by destruct Hne.
  - by left.
Qed.

(** X10: an exception raised by the checker's handler for the attribute's
    type is not caught: it reaches the caller of the setter, and the state,
    log included, is the one before the call. *)
Theorem set_attr_checker_exception w instance_name attr_name value o cur e :
  live_instances w !! instance_name = Some o →
  vars_of w o !! attr_name = Some cur →
  (py_type cur = TBool ∧ handle_bool value = Raise e)
  ∨ (py_type cur = TInt ∧ handle_int value = Raise e)
  ∨ (py_type cur = TTuple ∧ handle_tuple value (vars_of w o) attr_name = Raise e)
  ∨ (py_type cur = TList ∧ handle_list value (vars_of w o) attr_name = Raise e) →
  set_live_instance_attr_by_name instance_name attr_name value w = (Raise e, w).
Proof.
  intros Hin Hcur Hraise.
  assert (Hnn : cur ≠ VNone) by (intros ->; simpl in Hraise; intuition discriminate).
  rewrite (set_found _ _ _ _ _ _ Hin Hcur Hnn). unfold write.
  assert (Hd : dispatch (py_type cur) value (vars_of w o) attr_name = Raise e).
  { destruct Hraise as [[-> H]|[[-> H]|[[-> H]|[-> H]]]]; simpl; by rewrite H. }
  by rewrite Hd.
Qed.

(** X11: a failure of the attribute's type on the value the checker handed
    back is caught: the setter returns [None], logs the failure, and writes
    nothing. *)
Theorem set_attr_constructor_failure w instance_name attr_name value o cur v e :
  live_instances w !! instance_name = Some o →
  vars_of w o !! attr_name = Some cur →
  cur ≠ VNone →
  dispatch (py_type cur) value (vars_of w o) attr_name = Ok (Some v) →
  call_type (py_type cur) v = Raise e →
  set_live_instance_attr_by_name instance_name attr_name value w
  = (Ok VNone, with_log (λ l, l ++ [FailedToUpdate e]) w).
Proof.
  intros Hin Hcur Hnn Hd Hc.
  rewrite (set_found _ _ _ _ _ _ Hin Hcur Hnn). unfold write. by rewrite Hd, Hc.
Qed.

(** X12: when the checker gives [None] for a tuple or a list attribute, the
    setter returns [None] at once: nothing is written and nothing is
    logged. *)
Theorem set_attr_sequence_rejected w instance_name attr_name value o cur :
  live_instances w !! instance_name = Some o →
  vars_of w o !! attr_name = Some cur →
  (py_type cur = TTuple ∧ handle_tuple value (vars_of w o) attr_name = Ok VNone)
  ∨ (py_type cur = TList ∧ handle_list value (vars_of w o) attr_name = Ok VNone) →
  set_live_instance_attr_by_name instance_name attr_name value w = (Ok VNone, w).
Proof.
  intros Hin Hcur Hrej.
  assert (Hnn : cur ≠ VNone) by (intros ->; simpl in Hrej; intuition discriminate).
  rewrite (set_found _ _ _ _ _ _ Hin Hcur Hnn). unfold write.
  assert (Hd : dispatch (py_type cur) value (vars_of w o) attr_name = Ok None).
  { destruct Hrej as [[-> H]|[-> H]]; simpl; by rewrite H. }
  by rewrite Hd.
Qed.

(** X13: an attribute holding text takes any value: no checker is asked,
    the write cannot fail, and the attribute then holds [str(value)], the
    text itself when the value is a text. *)
Theorem set_attr_text w instance_name attr_name value o s :
  live_instances w !! instance_name = Some o →
  vars_of w o !! attr_name = Some (VStr s) →
  let r := set_live_instance_attr_by_name instance_name attr_name value w in
  r.1 = Ok VNone
  ∧ log r.2 = log w
  ∧ vars_of r.2 o !! attr_name = Some (VStr (py_str value))
  ∧ ∀ t, value = VStr t → (get_live_instance_attr_by_name (Some o) attr_name r.2).1 = Ok (VStr t).
Proof.
  intros Hin Hcur. cbn zeta.
  rewrite (set_found _ _ _ _ _ _ Hin Hcur) by done. unfold write. cbn [py_type dispatch].
  cbn. rewrite vars_of_setattr, decide_True by done. rewrite lookup_insert_eq.
  split; [done|]. split; [done|]. split; [done|].
  intros t ->. apply get_live_instance_attr_by_name_value.
  rewrite vars_of_setattr, decide_True by done. apply lookup_insert_eq.
Qed.

(** X14: when the checker hands back a value that already has the
    attribute's type, the setter stores that very value: the accessor reads
    it afterwards, the setter returns [None] and nothing is logged. *)
Theorem set_attr_stores_checked_value w instance_name attr_name value o cur v :
  live_instances w !! instance_name = Some o →
  vars_of w o !! attr_name = Some cur →
  cur ≠ VNone →
  dispatch (py_type cur) value (vars_of w o) attr_name = Ok (Some v) →
  py_type v = py_type cur →
  let r := set_live_instance_attr_by_name instance_name attr_name value w in
  r.1 = Ok VNone
  ∧ log r.2 = log w
  ∧ vars_of r.2 o !! attr_name = Some v
  ∧ (get_live_instance_attr_by_name (Some o) attr_name r.2).1 = Ok v.
Proof.
  intros Hin Hcur Hnn Hd Hty. cbn zeta.
  rewrite (set_found _ _ _ _ _ _ Hin Hcur Hnn). unfold write. rewrite Hd.
  rewrite (call_type_same_type (py_type cur) v Hty) by (by destruct cur).
  cbn [fst snd].
  assert (Hv : vars_of (setattr o attr_name v w).2 o !! attr_name = Some v).
  { rewrite vars_of_setattr, decide_True by done. apply lookup_insert_eq. }
  split; [done|]. split; [done|]. split; [done|].
  by apply get_live_instance_attr_by_name_value.
Qed.

(** X15: a tuple attribute stays a tuple and a list attribute a list
    whatever sequence the checker hands back: the elements of the list,
    tuple or text handed back are stored as a value of the attribute's own
    type. *)
Theorem set_attr_converts_sequence w instance_name attr_name value o cur v l :
  live_instances w !! instance_name = Some o →
  vars_of w o !! attr_name = Some cur →
  (py_type cur = TTuple ∧ handle_tuple value (vars_of w o) attr_name = Ok v)
  ∨ (py_type cur = TList ∧ handle_list value (vars_of w o) attr_name = Ok v) →
  v ≠ VNone →
  py_iter v = Ok l →
  vars_of (set_live_instance_attr_by_name instance_name attr_name value w).2 o !! attr_name
  = Some (match py_type cur with TTuple => VTuple l | _ => VList l end).
Proof.
  intros Hin Hcur Hseq Hv Hl.
  assert (Hnn : cur ≠ VNone) by (intros ->; simpl in Hseq; intuition discriminate).
  rewrite (set_found _ _ _ _ _ _ Hin Hcur Hnn). unfold write.
  assert (Hd : dispatch (py_type cur) value (vars_of w o) attr_name = Ok (Some v)).
  { destruct Hseq as [[-> H]|[-> H]]; simpl; rewrite H; by destruct v. }
  rewrite Hd.
  destruct Hseq as [[Hty _]|[Hty _]]; rewrite Hty; cbn [call_type]; rewrite Hl; cbn [snd];
    rewrite vars_of_setattr, decide_True by done; apply lookup_insert_eq.
Qed.

(** X16: on a name that is not registered the setter does what the lookup
    does and no more: it returns [None] and leaves the state of the failed
    lookup, the state before the call with the lookup's one warning; no
    checker is asked. *)
Theorem set_attr_unknown_instance w instance_name attr_name value :
  live_instances w !! instance_name = None →
  set_live_instance_attr_by_name instance_name attr_name value w
  = (Ok VNone, (get_live_instance_by_name instance_name w).2)
  ∧ (get_live_instance_by_name instance_name w).1 = Ok None
  ∧ (get_live_instance_by_name instance_name w).2
    = with_log (λ l, l ++ [InstanceDoesNotExist instance_name]) w.
Proof.
  intros Hin. rewrite set_live_instance_attr_by_name_eq, Hin.
  by rewrite (get_live_instance_by_name_missing _ _ Hin).
Qed.

(** X17: a successful write shows in the next serialization under every
    name the written object is registered under, where the attribute is not
    one of the skipped ones. *)
Theorem set_attr_then_serialize w instance_name attr_name value o cur v v' alias :
  live_instances w !! instance_name = Some o →
  vars_of w o !! attr_name = Some cur →
  cur ≠ VNone →
  dispatch (py_type cur) value (vars_of w o) attr_name = Ok (Some v) →
  call_type (py_type cur) v = Ok v' →
  live_instances w !! alias = Some o →
  startswith attr_name "__" = false →
  startswith attr_name "_tracked_attrs" = false →
  ∃ out live d,
    (serialize_instances (set_live_instance_attr_by_name instance_name attr_name value w).2).1
    = Ok out
    ∧ out !! "live_instances" = Some live
    ∧ live !! alias = Some d
    ∧ d !! attr_name = Some v'.
Proof.
  intros Hin Hcur Hnn Hd Hc Halias H1 H2.
  rewrite (set_found _ _ _ _ _ _ Hin Hcur Hnn). unfold write. rewrite Hd, Hc. cbn [snd].
  rewrite serialize_instances_eq. cbn [fst]. do 3 eexists.
  split; [done|]. split; [apply lookup_singleton_eq|].
  split.
  - rewrite lookup_fmap.
    change (live_instances (setattr o attr_name v' w).2) with (live_instances w).
    by rewrite Halias.
  - apply map_lookup_filter_Some. split.
    + rewrite vars_of_setattr, decide_True by done. apply lookup_insert_eq.
    + unfold skipped. simpl. by rewrite H1, H2.
Qed.

End Further.

(** ** The theorems on the running example *)

Section OnExample.
Import SpecTypeChecker Example.

Lemma reachable_w_x :
  reachable (TC := checker) (init {[ x := x_vars; y := y_vars ]} ∅ ∅) w_x.
Proof. unfold w_x, w_classes. repeat constructor. Qed.

Lemma register_instance_duplicate_witness :
  (register_instance "x" y w_x).1 = Raise ValueError
  ∧ (register_instance "x" y w_x).2 = w_x
  ∧ live_instances (register_instance "x" y w_x).2 = live_instances w_x
  ∧ cls_instances (register_instance "x" y w_x).2 = cls_instances w_x
  ∧ vars_of (register_instance "x" y w_x).2 y = vars_of w_x y.
Proof.
  apply (register_instance_duplicate w_x "x" y x).
  vm_compute. reflexivity.
Defined.

Lemma set_then_get_scalar_witness :
  (get_live_instance_attr_by_name (Some x) "a"
     (set_live_instance_attr_by_name (TC := checker) "x" "a" (VStr "7") w_xy).2).1
  = Ok (VInt 7)
  ∧ (get_live_instance_attr_by_name (Some x) "a"
       (set_live_instance_attr_by_name (TC := checker) "x" "a" (VStr "7x") w_xy).2).1
    = Ok (VInt 1)
  ∧ (get_live_instance_attr_by_name (Some y) "flag"
       (set_live_instance_attr_by_name (TC := checker) "y" "flag" (VStr "No") w_xy).2).1
    = Ok (VBool false)
  ∧ (get_live_instance_attr_by_name (Some y) "flag"
       (set_live_instance_attr_by_name (TC := checker) "y" "flag" (VStr "maybe") w_xy).2).1
    = Ok (VBool true).
Proof.
  pose proof (set_then_get_scalar (TC := checker) w_xy "x" "a" (VStr "7") x (VInt 1)) as H1.
  pose proof (set_then_get_scalar (TC := checker) w_xy "x" "a" (VStr "7x") x (VInt 1)) as H2.
  pose proof (set_then_get_scalar (TC := checker) w_xy "y" "flag" (VStr "No") y (VBool true))
    as H3.
  pose proof (set_then_get_scalar (TC := checker) w_xy "y" "flag" (VStr "maybe") y (VBool true))
    as H4.
  refine (conj _ (conj _ (conj _ _))).
  - apply H1; [vm_compute; reflexivity | vm_compute; reflexivity | right; reflexivity].
  - apply H2; [vm_compute; reflexivity | vm_compute; reflexivity | right; reflexivity].
  - apply H3; [vm_compute; reflexivity | vm_compute; reflexivity | left; reflexivity].
  - apply H4; [vm_compute; reflexivity | vm_compute; reflexivity | left; reflexivity].
Defined.

Lemma set_attr_preserves_type_witness :
  ∃ v', vars_of (set_live_instance_attr_by_name (TC := checker) "x" "a" (VStr "7") w_x).2 x
          !! "a" = Some v'
        ∧ py_type v' = TInt.
Proof.
  apply (set_attr_preserves_type (TC := checker) w_x "x" "a" (VStr "7") x "a" (VInt 1)).
  vm_compute. reflexivity.
Defined.

(** C3 as stated fails: on the example, setting [a] of ["x"] to ["7"]
    writes [7] over [1] and returns [None], which is not [True] and is not
    truthy; the calls naming an unknown instance and an absent attribute
    return the same. *)
Lemma set_attr_return_value_counterexample :
  let ok := set_live_instance_attr_by_name (TC := checker) "x" "a" (VStr "7") w_xy in
  vars_of w_xy x !! "a" = Some (VInt 1)
  ∧ vars_of ok.2 x !! "a" = Some (VInt 7)
  ∧ ok.1 = Ok VNone
  ∧ ok.1 ≠ Ok (VBool true)
  ∧ py_bool VNone = false
  ∧ (set_live_instance_attr_by_name (TC := checker) "nobody" "a" (VStr "7") w_xy).1 = ok.1
  ∧ (set_live_instance_attr_by_name (TC := checker) "x" "nothing" (VStr "7") w_xy).1 = ok.1.
Proof. vm_compute. refine (conj _ (conj _ (conj _ (conj _ (conj _ (conj _ _)))))); congruence. Qed.

Lemma register_instance_applies_snapshot_witness :
  (register_instance "x" x w_loaded).1 = Ok tt
  ∧ live_instances (register_instance "x" x w_loaded).2 !! "x" = Some x
  ∧ vars_of w_loaded x !! "a" = Some (VInt 1)
  ∧ vars_of (register_instance "x" x w_loaded).2 x !! "a" = Some (VInt 42)
  ∧ (get_live_instance_attr_by_name (Some x) "a" (register_instance "x" x w_loaded).2).1
    = Ok (VInt 42).
Proof.
  destruct (register_instance_applies_snapshot w_loaded "x" x
              {[ "live_instances" := {[ "x" := {[ "a" := VInt 42 ]} ]} ]}
              {[ "x" := {[ "a" := VInt 42 ]} ]} {[ "a" := VInt 42 ]})
    as (Hok & _ & _ & _ & Hin & _ & Hattr);
    [vm_compute; reflexivity | reflexivity | vm_compute; reflexivity
    | vm_compute; reflexivity |].
  destruct (Hattr "a" (VInt 42)) as [Hv Hget]; [vm_compute; reflexivity|].
  refine (conj Hok (conj Hin (conj _ (conj Hv Hget)))). vm_compute. reflexivity.
Defined.

Lemma serialize_instances_shape_witness :
  ∃ live,
    serialize_instances w_xy = (Ok {[ "live_instances" := live ]}, w_xy)
    ∧ dom live = dom (live_instances w_xy)
    ∧ ∀ name o, live_instances w_xy !! name = Some o →
        ∃ d, live !! name = Some d
             ∧ ∀ attr v, d !! attr = Some v
                         ↔ vars_of w_xy o !! attr = Some v
                           ∧ startswith attr "__" = false
                           ∧ startswith attr "_tracked_attrs" = false.
Proof. exact (proj1 (serialize_instances_shape w_xy)). Defined.

Lemma register_class_idempotent_witness :
  (register_class Foo w_x).1 = Ok Foo
  ∧ register_class Foo (register_class Foo w_x).2 = (Ok Foo, (register_class Foo w_x).2)
  ∧ live_classes (register_class Foo w_x).2 !! "Foo" = Some Foo
  ∧ length (filter (λ kv, kv.1 = "Foo")
              (map_to_list (live_classes (register_class Foo w_x).2))) = 1%nat
  ∧ live_classes (register_class (PyClass 7 "Foo") (register_class Foo w_x).2).2 !! "Foo"
    = Some (PyClass 7 "Foo").
Proof.
  destruct (register_class_idempotent w_x Foo) as (H1 & H2 & H3 & H4 & H5).
  refine (conj H1 (conj H2 (conj H3 (conj H4 _)))).
  rewrite (H5 (PyClass 7 "Foo") eq_refl). apply lookup_insert_eq.
Defined.

Lemma set_attr_of_none_attribute_witness :
  set_live_instance_attr_by_name (TC := checker) "y" "note" (VStr "text") w_xy
  = (Ok VNone, with_log (λ l, l ++ [AttributeDoesNotExist "note" y]) w_xy)
  ∧ obj_dict (set_live_instance_attr_by_name (TC := checker) "y" "note" (VStr "text") w_xy).2
    = obj_dict w_xy.
Proof.
  apply (set_attr_of_none_attribute (TC := checker) w_xy "y" "note" (VStr "text") y);
    vm_compute; reflexivity.
Defined.

Lemma serialize_instances_values_unchanged_witness :
  ∃ out live d,
    (serialize_instances w_xy).1 = Ok out
    ∧ out !! "live_instances" = Some live
    ∧ live !! "x" = Some d
    ∧ d !! "b" = Some (VStr "hi").
Proof.
  apply (serialize_instances_values_unchanged w_xy "x" x "b" (VStr "hi"));
    vm_compute; reflexivity.
Defined.
End OnExample.

(** ** The further properties on the running example *)

Section FurtherOnExample.
Import SpecTypeChecker Example.

Ltac run := vm_compute; reflexivity.

Lemma register_instance_then_lookup_witness :
  get_live_instance_by_name "x" w_x = (Ok (Some x), w_x)
  ∧ ∀ other, other ≠ "x" → live_instances w_x !! other = live_instances w_classes !! other.
Proof. apply (register_instance_then_lookup w_classes "x" x). run. Defined.

Lemma register_instance_nothing_saved_witness :
  (register_instance "x" x w_classes).1 = Ok tt
  ∧ ∀ o, vars_of (register_instance "x" x w_classes).2 o = vars_of w_classes o.
Proof.
  apply (register_instance_nothing_saved w_classes "x" x); [run|left; reflexivity].
Defined.

Lemma register_instance_appends_witness :
  (get_live_instances "Foo" (register_instance "z" z w_x).2).1 = Ok (Some ([x] ++ [z]))
  ∧ (get_live_instances "Bar" (register_instance "z" z w_x).2).1 = Ok (Some [])
  ∧ (get_live_instances "Sub" (register_instance "b2" (PyObj 12 Sub) w_sub).2).1
    = Ok (Some ([b] ++ [PyObj 12 Sub]))
  ∧ (get_live_instances "Base" (register_instance "b2" (PyObj 12 Sub) w_sub).2).1
    = Ok (Some ([b] ++ [PyObj 12 Sub])).
Proof.
  destruct (register_instance_appends w_x "z" z "Foo" Foo ltac:(run) ltac:(run))
    as (l1 & H1 & Hown1 & _).
  destruct (register_instance_appends w_x "z" z "Bar" Bar ltac:(run) ltac:(run))
    as (l2 & H2 & _ & Hother2).
  destruct (register_instance_appends w_sub "b2" (PyObj 12 Sub) "Sub" Sub
              ltac:(run) ltac:(run)) as (l3 & H3 & Hown3 & _).
  destruct (register_instance_appends w_sub "b2" (PyObj 12 Sub) "Base" Base
              ltac:(run) ltac:(run)) as (l4 & H4 & Hshared4 & _).
  assert (l1 = [x]) as ->
    by (assert (Hl : Ok (Some l1) = Ok (Some [x])) by (rewrite <-H1; run); congruence).
  assert (l2 = []) as ->
    by (assert (Hl : Ok (Some l2) = Ok (Some [])) by (rewrite <-H2; run); congruence).
  assert (l3 = [b]) as ->
    by (assert (Hl : Ok (Some l3) = Ok (Some [b])) by (rewrite <-H3; run); congruence).
  assert (l4 = [b]) as ->
    by (assert (Hl : Ok (Some l4) = Ok (Some [b])) by (rewrite <-H4; run); congruence).
  refine (conj (Hown1 _) (conj (Hother2 _) (conj (Hown3 _) (Hshared4 _)))).
  - left. reflexivity.
  - apply (bool_decide_unpack _). run.
  - left. reflexivity.
  - right. run.
Defined.

Lemma reachable_class_lists_witness :
  default [] (cls_instances w_x !! Foo) ≡ₚ registered_of w_x Foo
  ∧ x ∈ default [] (cls_instances w_x !! obj_class x).
Proof.
  destruct (reachable_class_lists (TC := checker) _ w_x reachable_w_x) as [Hperm Hin].
  split; [apply Hperm|]. apply (Hin "x"). run.
Defined.

Lemma registered_name_is_kept_witness :
  (∀ cls, live_instances (register_class cls w_x).2 !! "x" = Some x)
  ∧ (∀ name instance, live_instances (register_instance name instance w_x).2 !! "x" = Some x)
  ∧ (∀ instance_name attr_name value,
       live_instances
         (set_live_instance_attr_by_name (TC := checker) instance_name attr_name value w_x).2
         !! "x" = Some x).
Proof. apply (registered_name_is_kept (TC := checker) w_x "x" x). run. Defined.

Lemma register_class_then_lookup_witness :
  let Foo' := PyClass 7 "Foo" in
  let w' := (register_class Foo' w_x).2 in
  (get_live_class_by_name "Foo" w').1 = Ok (Some Foo')
  ∧ (∀ other, other ≠ "Foo" →
       (get_live_class_by_name other w').1 = (get_live_class_by_name other w_x).1)
  ∧ live_instances w' = live_instances w_x
  ∧ obj_dict w' = obj_dict w_x
  ∧ (get_live_instances "Foo" w').1 = Ok (Some (class_instances w_x Foo' [])).
Proof. exact (register_class_then_lookup w_x (PyClass 7 "Foo")). Defined.

Lemma load_values_into_instance_effect_witness :
  let saved : attrs := {[ "a" := VStr "now text"; "c" := VInt 3 ]} in
  let w1 := (load_values_into_instance x saved w_classes).2 in
  (load_values_into_instance x saved w_classes).1 = Ok x
  ∧ (∀ a, vars_of w1 x !! a
          = match saved !! a with Some v => Some v | None => vars_of w_classes x !! a end)
  ∧ (∀ o, o ≠ x → vars_of w1 o = vars_of w_classes o)
  ∧ same_registry w_classes w1
  ∧ ∀ o, vars_of (load_values_into_instance x saved w1).2 o = vars_of w1 o.
Proof.
  exact (load_values_into_instance_effect x {[ "a" := VStr "now text"; "c" := VInt 3 ]}
           w_classes).
Defined.

Lemma serialize_then_register_witness :
  vars_of (register_instance "x" x2 w_restore).2 x2 !! "a" = Some (VInt 1)
  ∧ vars_of (register_instance "x" x2 w_restore).2 x2 !! "b" = Some (VStr "hi")
  ∧ vars_of (register_instance "x" x2 w_restore).2 x2 !! "_tracked_attrs"
    = Some (VList [VStr "a"]).
Proof.
  assert (Hout : (serialize_instances w_x).1
                 = Ok {[ "live_instances" := {[ "x" := {[ "a" := VInt 1; "b" := VStr "hi" ]} ]} ]})
    by run.
  assert (Hin : live_instances w_x !! "x" = Some x) by run.
  assert (Hfree : live_instances w_restore !! "x" = None) by run.
  pose proof (serialize_then_register w_x _ "x" x w_restore x2 Hout Hin eq_refl Hfree) as H.
  refine (conj _ (conj _ _)); (etrans; [apply H|run]).
Defined.

Lemma set_attr_frame_witness :
  let w' := (set_live_instance_attr_by_name (TC := checker) "x" "a" (VStr "7") w_xy).2 in
  live_classes w' = live_classes w_xy
  ∧ live_instances w' = live_instances w_xy
  ∧ cls_instances w' = cls_instances w_xy
  ∧ file_handler w' = file_handler w_xy
  ∧ (∀ o a, vars_of w' o !! a ≠ vars_of w_xy o !! a →
       live_instances w_xy !! "x" = Some o ∧ a = "a")
  ∧ (log w' = log w_xy ∨ ∃ x, log w' = log w_xy ++ [x]).
Proof. exact (set_attr_frame (TC := checker) w_xy "x" "a" (VStr "7")). Defined.

Lemma set_attr_checker_exception_witness :
  set_live_instance_attr_by_name (TC := checker) "x" "a" (VStr "7x") w_xy
  = (Raise TypeCoercionError, w_xy).
Proof.
  apply (set_attr_checker_exception (TC := checker) w_xy "x" "a" (VStr "7x") x (VInt 1));
    [run | run | right; left; split; run].
Defined.

Lemma set_attr_constructor_failure_witness :
  set_live_instance_attr_by_name (TC := passthrough) "z" "n" (VStr "7x") w_z
  = (Ok VNone, with_log (λ l, l ++ [FailedToUpdate ValueError]) w_z).
Proof.
  apply (set_attr_constructor_failure (TC := passthrough) w_z "z" "n" (VStr "7x") z (VInt 3)
           (VStr "7x"));
    [run | run | discriminate | run | run].
Defined.

Lemma set_attr_sequence_rejected_witness :
  set_live_instance_attr_by_name (TC := checker) "z" "pos" (VStr "1, 2, 3") w_z
  = (Ok VNone, w_z).
Proof.
  apply (set_attr_sequence_rejected (TC := checker) w_z "z" "pos" (VStr "1, 2, 3") z
           (VTuple [VInt 1; VInt 2]));
    [run | run | left; split; run].
Defined.

Lemma set_attr_text_witness :
  let r := set_live_instance_attr_by_name (TC := checker) "z" "title" (VInt 5) w_z in
  r.1 = Ok VNone
  ∧ log r.2 = log w_z
  ∧ vars_of r.2 z !! "title" = Some (VStr (py_str (VInt 5)))
  ∧ ∀ t, VInt 5 = VStr t → (get_live_instance_attr_by_name (Some z) "title" r.2).1 = Ok (VStr t).
Proof.
  apply (set_attr_text (TC := checker) w_z "z" "title" (VInt 5) z "t"); run.
Defined.

Lemma set_attr_stores_checked_value_witness :
  let r := set_live_instance_attr_by_name (TC := checker) "z" "pos" (VStr "(4, 5)") w_z in
  r.1 = Ok VNone
  ∧ log r.2 = log w_z
  ∧ vars_of r.2 z !! "pos" = Some (VTuple [VInt 4; VInt 5])
  ∧ (get_live_instance_attr_by_name (Some z) "pos" r.2).1 = Ok (VTuple [VInt 4; VInt 5]).
Proof.
  apply (set_attr_stores_checked_value (TC := checker) w_z "z" "pos" (VStr "(4, 5)") z
           (VTuple [VInt 1; VInt 2]) (VTuple [VInt 4; VInt 5]));
    [run | run | discriminate | run | run].
Defined.

Lemma set_attr_converts_sequence_witness :
  vars_of (set_live_instance_attr_by_name (TC := passthrough) "z" "pos" (VList [VInt 7]) w_z).2
    z !! "pos"
  = Some (VTuple [VInt 7])
  ∧ vars_of (set_live_instance_attr_by_name (TC := passthrough) "z" "tags" (VStr "ab") w_z).2
      z !! "tags"
    = Some (VList [VStr "a"; VStr "b"]).
Proof.
  split.
  - apply (set_attr_converts_sequence (TC := passthrough) w_z "z" "pos" (VList [VInt 7]) z
             (VTuple [VInt 1; VInt 2]) (VList [VInt 7]) [VInt 7]);
      [run | run | left; split; run | discriminate | run].
  - apply (set_attr_converts_sequence (TC := passthrough) w_z "z" "tags" (VStr "ab") z
             (VList [VStr "a"]) (VStr "ab") [VStr "a"; VStr "b"]);
      [run | run | right; split; run | discriminate | run].
Defined.

Lemma set_attr_unknown_instance_witness :
  set_live_instance_attr_by_name (TC := checker) "nobody" "a" (VStr "7") w_xy
  = (Ok VNone, (get_live_instance_by_name "nobody" w_xy).2)
  ∧ (get_live_instance_by_name "nobody" w_xy).1 = Ok None
  ∧ (get_live_instance_by_name "nobody" w_xy).2
    = with_log (λ l, l ++ [InstanceDoesNotExist "nobody"]) w_xy.
Proof.
  apply (set_attr_unknown_instance (TC := checker) w_xy "nobody" "a" (VStr "7")). run.
Defined.

Lemma set_attr_then_serialize_witness :
  ∃ out live d,
    (serialize_instances
       (set_live_instance_attr_by_name (TC := checker) "x" "a" (VStr "7") w_xy).2).1 = Ok out
    ∧ out !! "live_instances" = Some live
    ∧ live !! "x" = Some d
    ∧ d !! "a" = Some (VInt 7).
Proof.
  apply (set_attr_then_serialize (TC := checker) w_xy "x" "a" (VStr "7") x (VInt 1)
           (VInt 7) (VInt 7) "x");
    [run | run | discriminate | run | run | run | run | run].
Defined.

Lemma register_instance_registers_no_class_witness :
  live_classes (register_instance "x" x (init {[ x := x_vars ]} ∅ ∅)).2
  = live_classes (init {[ x := x_vars ]} ∅ ∅)
  ∧ (get_live_instances "Foo" (register_instance "x" x (init {[ x := x_vars ]} ∅ ∅)).2).1
    = Ok None.
Proof.
  apply (register_instance_registers_no_class (init {[ x := x_vars ]} ∅ ∅) "x" x "Foo"). run.
Defined.

Lemma get_live_instances_none_or_empty_witness :
  (get_live_instances "Bar" w_x).1 = Ok (Some [])
  ∧ (get_live_instances "Baz" w_x).1 = Ok None.
Proof.
  destruct (get_live_instances_none_or_empty (TC := checker) _ w_x "Bar" reachable_w_x)
    as [_ Hempty].
  destruct (get_live_instances_none_or_empty (TC := checker) _ w_x "Baz" reachable_w_x)
    as [Hnone _].
  split.
  - apply (Hempty Bar); [run|].
    intros c Hc. assert (c = Bar) as -> by (vm_compute in Hc; by apply list_elem_of_singleton).
    split; [run|]. apply (bool_decide_unpack _). run.
  - apply Hnone. run.
Defined.

End FurtherOnExample.
